(** * balance.py: deposit balance scraper

    A shallow embedding of [src/balance.py] (functions [get_balance] and
    [run]) and the properties of its parsing step, its control flow and
    the way it drives the browser.

    Modelling choices, all visible in the definitions below:
    - a Python [str] is the list of its code points ([text]); a Python
      [int] is a [Z];
    - the dict returned by [get_balance] is a [gmap string Z];
    - the browser, the page and the [login] collaborator are outside the
      file: every call to them is answered by an environment [env], which
      says whether the call returns, raises or never comes back, and how
      long it took.  The calls the program makes are recorded, in order,
      in a trace, together with the lines it prints;
    - failure model: [login], [page.goto], [page.wait_for_selector] and
      [Locator.inner_text] may raise or block as the environment decides;
      acquiring the browser, the context and the page, printing, and the
      two [close] calls may return or raise as the environment decides;
      [int] raises on a numeral it rejects and on one with more digits
      than the interpreter converts. *)


From Stdlib Require Import ZArith NArith List Lia.

From stdpp Require Import gmap strings.

Local Open Scope N_scope.

(** ** Text: Python [str] as a list of code points *)

Definition char := N.

Definition text := list char.

(** Decoding of the UTF-8 bytes of a Rocq string literal, so that the
    literals of the program can be written here as they are in the
    source. *)
Fixpoint utf8_decode (bs : list N) : text :=
  match bs with
  | [] => []
  | b :: r =>
      if b <? 128 then b :: utf8_decode r
      else if b <? 224 then
        match r with
        | c1 :: r' =>
            (N.lor (N.shiftl (N.land b 31) 6) (N.land c1 63)) :: utf8_decode r'
        | _ => []
        end
      else if b <? 240 then
        match r with
        | c1 :: c2 :: r' =>
            (N.lor (N.shiftl (N.land b 15) 12)
               (N.lor (N.shiftl (N.land c1 63) 6) (N.land c2 63)))
              :: utf8_decode r'
        | _ => []
        end
      else
        match r with
        | c1 :: c2 :: c3 :: r' =>
            (N.lor (N.shiftl (N.land b 7) 18)
               (N.lor (N.shiftl (N.land c1 63) 12)
                  (N.lor (N.shiftl (N.land c2 63) 6) (N.land c3 63))))
              :: utf8_decode r'
        | _ => []
        end
  end.

Definition str (s : string) : text :=
  utf8_decode (map (fun b => Byte.to_N b) (String.list_byte_of_string s)).

(** [c in '0'..'9'] *)
Definition is_digit (c : char) : bool := (48 <=? c) && (c <=? 57).

(** [str.isspace] on one code point: the code points CPython treats as
    white space. *)
Definition is_space (c : char) : bool :=
  ((9 <=? c) && (c <=? 13)) || ((28 <=? c) && (c <=? 32))
  || (c =? 133) || (c =? 160) || (c =? 5760)
  || ((8192 <=? c) && (c <=? 8202))
  || (c =? 8232) || (c =? 8233) || (c =? 8239) || (c =? 8287)
  || (c =? 12288).

Fixpoint lstrip (s : text) : text :=
  match s with
  | c :: s' => if is_space c then lstrip s' else s
  | [] => []
  end.

Definition rstrip (s : text) : text := rev (lstrip (rev s)).

(** [s.strip()] *)
Definition strip (s : text) : text := rstrip (lstrip s).

(** [re.sub(pattern, repl, s)] for a pattern that is one character class:
    scanning left to right, every character of the class is replaced by
    [repl], every other character is kept. *)
Fixpoint re_sub (class : char -> bool) (repl : text) (s : text) : text :=
  match s with
  | [] => []
  | c :: s' =>
      if class c then repl ++ re_sub class repl s'
      else c :: re_sub class repl s'
  end.

(** The class [[^0-9]]. *)
Definition non_digit (c : char) : bool := negb (is_digit c).

(** ** Python [int(s)] on a [str], base 10

    White space around the numeral is dropped, one sign is accepted, and
    single underscores may separate digits; anything else (the empty
    string too) is a [ValueError], here [None].  Only the ASCII digits are
    taken as digits: no other digit reaches [int] in this program, since
    [re.sub] has removed every character outside ['0'..'9'].  A numeral
    with more than [int_max_str_digits] digits is a [ValueError] as well:
    CPython converts 4300 digits at most, unless it is set otherwise. *)
Definition int_max_str_digits : N := 4300.

(** The number of digit characters of a numeral is within the limit. *)
Definition within_limit (s : text) : bool :=
  N.of_nat (length (List.filter is_digit s)) <=? int_max_str_digits.

Fixpoint int_digits (acc : Z) (after_digit : bool) (s : text) : option Z :=
  match s with
  | [] => if after_digit then Some acc else None
  | c :: s' =>
      if is_digit c then int_digits (10 * acc + (Z.of_N c - 48))%Z true s'
      else if (c =? 95) && after_digit then int_digits acc false s'
      else None
  end.

Definition int_of_text (s : text) : option Z :=
  match strip s with
  | [] => None
  | c :: r =>
      if negb (within_limit (c :: r)) then None
      else if c =? 43 then int_digits 0 false r
      else if c =? 45 then option_map Z.opp (int_digits 0 false r)
      else int_digits 0 false (c :: r)
  end.

(** ** The format specification [,] of an f-string on an [int] *)

(** Decimal digits, least significant first. *)
Fixpoint digits_rev (fuel : nat) (n : N) : text :=
  match fuel with
  | O => []
  | S f =>
      if n <? 10 then [48 + n]
      else (48 + n mod 10) :: digits_rev f (n / 10)
  end.

(** A comma after every third digit, counted from the least significant
    one, where more digits follow. *)
Fixpoint group3_rev (ds : text) : text :=
  match ds with
  | a :: b :: c :: ((_ :: _) as r) => a :: b :: c :: 44 :: group3_rev r
  | _ => ds
  end.

(** [format(z, ',')] *)
Definition format_comma (z : Z) : text :=
  (if (z <? 0)%Z then [45] else [])
    ++ rev (group3_rev (digits_rev (S (N.to_nat (N.log2 (Z.abs_N z)))) (Z.abs_N z))).

(** ** Exceptions and outcomes *)

(** The classes of exception the program can meet.  Every class but the
    last derives from [Exception]; the last stands for what derives from
    [BaseException] only ([KeyboardInterrupt], [SystemExit]). *)
Inductive exn_class :=
| TimeoutError
| PlaywrightError
| ValueError
| KeyError
| OtherException
| BaseExceptionOnly.

Record exn := Exn { exn_cls : exn_class; exn_str : text }.

(** [isinstance(e, Exception)] *)
Definition is_Exception (e : exn) : bool :=
  match exn_cls e with
  | BaseExceptionOnly => false
  | _ => true
  end.

Definition is_timeout (e : exn) : bool :=
  match exn_cls e with
  | TimeoutError => true
  | _ => false
  end.

(** What a call does: it returns a value, raises, or never comes back. *)
Inductive outcome (A : Type) : Type :=
| Returns (a : A)
| Raises (e : exn)
| Blocks.

Arguments Returns {A} a.
Arguments Raises {A} e.
Arguments Blocks {A}.

(** ** Calls to the outside, and the trace *)

Inductive load_state := Load | DomContentLoaded | NetworkIdle | Commit.

Inductive element_state := Attached | Detached | Visible | Hidden.

Inductive event :=
| Launch (headless : bool)
| NewContext
| NewPage
| Login
| Goto (url : string) (timeout : N) (wait_until : load_state)
| WaitForSelector (selector : string) (state : element_state) (timeout : N)
| InnerText (selector : string)
| Print (line : text)
| ContextClose
| BrowserClose.

(** A run of a piece of program: its outcome, the events it produced in
    order, and the time it took in milliseconds. *)
Record exec (A : Type) : Type :=
  Exec { result : outcome A; trace : list event; elapsed : N }.

Arguments Exec {A} result trace elapsed.
Arguments result {A} e.
Arguments trace {A} e.
Arguments elapsed {A} e.

Definition ret {A} (a : A) : exec A := Exec (Returns a) [] 0.

Definition raise {A} (e : exn) : exec A := Exec (Raises e) [] 0.

Definition bind {A B} (m : exec A) (k : A -> exec B) : exec B :=
  match result m with
  | Returns a =>
      let m' := k a in
      Exec (result m') (trace m ++ trace m') (elapsed m + elapsed m')
  | Raises e => Exec (Raises e) (trace m) (elapsed m)
  | Blocks => Exec Blocks (trace m) (elapsed m)
  end.

Declare Scope exec_scope.

Delimit Scope exec_scope with exec.

Notation "x <- c1 ;; c2" := (bind c1 (fun x => c2))
  (at level 20, c1 at level 99, c2 at level 200, only parsing) : exec_scope.

Notation "c1 ;; c2" := (bind c1 (fun _ => c2))
  (at level 100, c2 at level 200, only parsing, right associativity) : exec_scope.

Local Open Scope exec_scope.

(** [try: body  except Exception as e: handler e] *)
Definition try_except {A} (body : exec A) (handler : exn -> exec A) : exec A :=
  match result body with
  | Raises e =>
      if is_Exception e then
        let h := handler e in
        Exec (result h) (trace body ++ trace h) (elapsed body + elapsed h)
      else body
  | _ => body
  end.

(** [try: body  finally: final].  The [finally] suite runs when the body
    returns and when it raises; an exception of the suite replaces the
    pending outcome. *)
Definition try_finally {A} (body : exec A) (final : exec unit) : exec A :=
  match result body with
  | Blocks => body
  | r =>
      Exec (match result final with
            | Returns _ => r
            | Raises e' => Raises e'
            | Blocks => Blocks
            end)
           (trace body ++ trace final) (elapsed body + elapsed final)
  end.

(** The answer of the environment to one call. *)
Record reply (A : Type) : Type := Reply { answer : outcome A; took : N }.

Arguments Reply {A} answer took.
Arguments answer {A} r.
Arguments took {A} r.

Definition external {A} (ev : event) (r : reply A) : exec A :=
  Exec (answer r) [ev] (took r).

(** A call that comes back at once: it returns, or raises [e]. *)
Definition direct (ev : event) (r : option exn) : exec unit :=
  Exec (match r with None => Returns tt | Some e => Raises e end) [ev] 0.

(** The environment of one run: the [login] collaborator and the page as
    the browser shows it, then what becomes of the calls that acquire and
    release the browser and of each [print] ([None]: the call returns). *)
Record env := {
  on_login : reply unit;
  on_goto : string -> N -> load_state -> reply unit;
  on_wait_for_selector : string -> element_state -> N -> reply unit;
  on_inner_text : string -> reply text;
  on_launch : option exn;
  on_new_context : option exn;
  on_new_page : option exn;
  on_print : text -> option exn;
  on_context_close : option exn;
  on_browser_close : option exn
}.

(** ** The program *)

(** [int(s)], raising [ValueError] where Python does. *)
Definition py_int (s : text) : exec Z :=
  match int_of_text s with
  | Some z => ret z
  | None =>
      raise (Exn ValueError
               (if within_limit (strip s)
                then str "invalid literal for int() with base 10: '" ++ s ++ str "'"
                else str "Exceeds the limit (4300 digits) for integer string conversion"))
  end.

(** [d[k]], raising [KeyError] on a missing key. *)
Definition getitem (d : gmap string Z) (k : string) : exec Z :=
  match d !! k with
  | Some v => ret v
  | None => raise (Exn KeyError (str "'" ++ str k ++ str "'"))
  end.

(** [page.locator(selector)] only builds a locator: nothing is asked of
    the page until a method of the locator is called. *)
Definition locator (selector : string) : string := selector.

Section Program.

Variable E : env.

Definition login : exec unit := external Login (on_login E).

Definition page_goto (url : string) (timeout : N) (wait_until : load_state)
  : exec unit :=
  external (Goto url timeout wait_until) (on_goto E url timeout wait_until).

Definition page_wait_for_selector
  (selector : string) (state : element_state) (timeout : N) : exec unit :=
  external (WaitForSelector selector state timeout)
           (on_wait_for_selector E selector state timeout).

Definition inner_text (loc : string) : exec text :=
  external (InnerText loc) (on_inner_text E loc).

(** [print(line)] *)
Definition print (line : text) : exec unit :=
  direct (Print line) (on_print E line).

(** [playwright.chromium.launch(headless=...)], [browser.new_context()],
    [context.new_page()], [context.close()] and [browser.close()] *)
Definition chromium_launch (headless : bool) : exec unit :=
  direct (Launch headless) (on_launch E).

Definition new_context : exec unit := direct NewContext (on_new_context E).

Definition new_page : exec unit := direct NewPage (on_new_page E).

Definition context_close : exec unit :=
  direct ContextClose (on_context_close E).

Definition browser_close : exec unit :=
  direct BrowserClose (on_browser_close E).

(** [get_balance(page)], lines 11 to 55 of the source. *)
Definition get_balance : exec (gmap string Z) :=
  page_goto "https://www.dhlottery.co.kr/mypage/home" 0 DomContentLoaded ;;
  page_wait_for_selector "#totalAmt" Visible 10000 ;;
  let deposit_el := locator "#totalAmt" in
  deposit_raw <- inner_text deposit_el ;;
  let deposit_text := strip deposit_raw in
  let available_el := locator "#divCrntEntrsAmt" in
  available_raw <- inner_text available_el ;;
  let available_text := strip available_raw in
  let deposit_str := re_sub non_digit [] deposit_text in
  let available_str := re_sub non_digit [] available_text in
  deposit_balance <-
    (match deposit_str with [] => ret 0%Z | _ => py_int deposit_str end) ;;
  available_amount <-
    (match available_str with [] => ret 0%Z | _ => py_int available_str end) ;;
  ret (<["deposit_balance" := deposit_balance]>
         (<["available_amount" := available_amount]> ∅)).

(** [run(playwright)], lines 58 to 85 of the source. *)
Definition run : exec (gmap string Z) :=
  chromium_launch true ;;
  new_context ;;
  new_page ;;
  try_finally
    (try_except
       (login ;;
        balance_info <- get_balance ;;
        deposit <- getitem balance_info "deposit_balance" ;;
        print (str "💰 예치금 잔액: " ++ format_comma deposit ++ str "원") ;;
        available <- getitem balance_info "available_amount" ;;
        print (str "🛒 구매가능: " ++ format_comma available ++ str "원") ;;
        ret balance_info)
       (fun e =>
          print (str "❌ Error: " ++ exn_str e) ;;
          raise e))
    (context_close ;;
     browser_close).

End Program.

(** ** A page in time

    The timing rules of the browser library, as its documentation gives
    them: a call with [timeout = 0] has no deadline; with [timeout > 0] it
    raises a [TimeoutError] once that many milliseconds have passed.
    [page.goto] returns when the page has loaded; [wait_for_selector]
    returns when the element is in the asked state; [Locator.inner_text]
    waits, for 30 seconds at most, for the element to be in the document,
    whether it is shown or not. *)

Inductive navigation :=
| NavLoads (ms : N)
| NavFails (message : text)
| NavNever.

Record element := { el_text : text; el_visible_after : option N }.

Record site := {
  site_login : reply unit;
  site_nav : navigation;
  site_dom : gmap string element
}.

Definition timeout_error (what : text) : exn := Exn TimeoutError what.

Definition in_time (timeout ms : N) : bool := (timeout =? 0) || (ms <=? timeout).

(** A call that is over after [ms] milliseconds ([None]: never), under a
    deadline. *)
Definition deadline {A} (timeout : N) (ready : option N) (a : A) (what : text)
  : reply A :=
  match ready with
  | Some ms =>
      if in_time timeout ms then Reply (Returns a) ms
      else Reply (Raises (timeout_error what)) timeout
  | None =>
      if timeout =? 0 then Reply Blocks 0
      else Reply (Raises (timeout_error what)) timeout
  end.

Definition site_goto (s : site) (url : string) (timeout : N) (w : load_state)
  : reply unit :=
  match site_nav s with
  | NavLoads ms => deadline timeout (Some ms) tt (str "Page.goto: Timeout exceeded.")
  | NavFails message => Reply (Raises (Exn PlaywrightError message)) 0
  | NavNever => deadline timeout None tt (str "Page.goto: Timeout exceeded.")
  end.

(** When the element named by a selector is first in the asked state. *)
Definition state_reached (st : element_state) (el : option element) : option N :=
  match st, el with
  | Attached, Some _ => Some 0
  | Attached, None => None
  | Detached, Some _ => None
  | Detached, None => Some 0
  | Visible, Some e => el_visible_after e
  | Visible, None => None
  | Hidden, Some e =>
      match el_visible_after e with Some 0 => None | _ => Some 0 end
  | Hidden, None => Some 0
  end.

Definition site_wait_for_selector
  (s : site) (selector : string) (st : element_state) (timeout : N) : reply unit :=
  deadline timeout (state_reached st (site_dom s !! selector)) tt
           (str "Page.wait_for_selector: Timeout exceeded.").

Definition site_inner_text (s : site) (selector : string) : reply text :=
  match site_dom s !! selector with
  | Some e => Reply (Returns (el_text e)) 0
  | None =>
      Reply (Raises (timeout_error (str "Locator.inner_text: Timeout exceeded.")))
            30000
  end.

Definition env_of_site (s : site) : env :=
  {| on_login := site_login s;
     on_goto := site_goto s;
     on_wait_for_selector := site_wait_for_selector s;
     on_inner_text := site_inner_text s;
     on_launch := None;
     on_new_context := None;
     on_new_page := None;
     on_print := fun _ => None;
     on_context_close := None;
     on_browser_close := None |}.

(** ** What the properties are stated with *)

(** The digit characters of a text, in their order. *)
Definition digits_of (t : text) : text := List.filter is_digit t.

(** The number a sequence of digit characters denotes in base 10; the
    empty sequence denotes 0. *)
Definition decimal_value (ds : text) : Z :=
  fold_left (fun acc c => (10 * acc + (Z.of_N c - 48))%Z) ds 0%Z.

(** The dict [{'deposit_balance': x, 'available_amount': y}]. *)
Definition balance_info (x y : Z) : gmap string Z :=
  <["deposit_balance" := x]> (<["available_amount" := y]> ∅).

Definition dashboard : string := "https://www.dhlottery.co.kr/mypage/home".

(** The page is reached and both elements give a text: the four calls of
    [get_balance] to the page return, the last two with [t1] and [t2]. *)
Definition extracts (E : env) (t1 t2 : text) : Prop :=
  answer (on_goto E dashboard 0 DomContentLoaded) = Returns tt
  /\ answer (on_wait_for_selector E "#totalAmt" Visible 10000) = Returns tt
  /\ answer (on_inner_text E "#totalAmt") = Returns t1
  /\ answer (on_inner_text E "#divCrntEntrsAmt") = Returns t2.

(** A text with nothing to parse: empty, white space only, or without any
    digit. *)
Definition digitless (t : text) : Prop :=
  t = [] \/ forallb is_space t = true \/ forallb non_digit t = true.

Definition is_print (ev : event) : bool :=
  match ev with Print _ => true | _ => false end.

Definition is_context_close (ev : event) : bool :=
  match ev with ContextClose => true | _ => false end.

Definition is_browser_close (ev : event) : bool :=
  match ev with BrowserClose => true | _ => false end.

Definition is_wait (ev : event) : bool :=
  match ev with WaitForSelector _ _ _ => true | _ => false end.

(** The body of the [try] of [run] up to the end of [get_balance]: login,
    navigation, wait and extraction. *)
Definition session (E : env) : exec (gmap string Z) :=
  login E ;; get_balance E.

(** The lines [run] prints. *)
Definition deposit_line (x : Z) : text :=
  str "💰 예치금 잔액: " ++ format_comma x ++ str "원".

Definition available_line (y : Z) : text :=
  str "🛒 구매가능: " ++ format_comma y ++ str "원".

(** The parts of [run] around the session, named for the proofs. *)
Definition report (E : env) (balance_info : gmap string Z)
  : exec (gmap string Z) :=
  deposit <- getitem balance_info "deposit_balance" ;;
  print E (str "💰 예치금 잔액: " ++ format_comma deposit ++ str "원") ;;
  available <- getitem balance_info "available_amount" ;;
  print E (str "🛒 구매가능: " ++ format_comma available ++ str "원") ;;
  ret balance_info.

Definition on_error (E : env) (e : exn) : exec (gmap string Z) :=
  print E (str "❌ Error: " ++ exn_str e) ;; raise e.

Definition release (E : env) : exec unit :=
  context_close E ;; browser_close E.

(** The [try] statement of [run]. *)
Definition guarded (E : env) : exec (gmap string Z) :=
  try_finally
    (try_except (bind (session E) (report E)) (on_error E))
    (release E).

(** The browser, the context and the page are acquired. *)
Definition acquired (E : env) : Prop :=
  on_launch E = None /\ on_new_context E = None /\ on_new_page E = None.

(** The two [close] calls return. *)
Definition closes (E : env) : Prop :=
  on_context_close E = None /\ on_browser_close E = None.

(** The text of an element is within what [int] converts. *)
Definition convertible (t : text) : Prop := within_limit (digits_of t) = true.

(** The guarded conversion of lines 46 to 50 on the text of one element,
    as the lemmas below sum it up. *)
Definition too_long : exn :=
  Exn ValueError
      (str "Exceeds the limit (4300 digits) for integer string conversion").

Definition amount (t : text) : exec Z :=
  if within_limit (digits_of t) then ret (decimal_value (digits_of t))
  else raise too_long.

(** What lines 46 to 55 make of the two texts. *)
Definition converted (t1 t2 : text) : outcome (gmap string Z) :=
  if within_limit (digits_of t1) then
    if within_limit (digits_of t2) then
      Returns (balance_info (decimal_value (digits_of t1))
                            (decimal_value (digits_of t2)))
    else Raises too_long
  else Raises too_long.

(** A text of [n] digits 1. *)
Definition ones (n : nat) : text := repeat 49 n.

(** The events [run] adds after the session: printed lines and closes. *)
Definition is_epilogue (ev : event) : bool :=
  match ev with
  | Print _ | ContextClose | BrowserClose => true
  | _ => false
  end.

(** The events of a session are calls to the page and to [login]: no line
    is printed and nothing is closed in it. *)
Definition is_page_call (ev : event) : bool :=
  match ev with
  | Login | Goto _ _ _ | WaitForSelector _ _ _ | InnerText _ => true
  | _ => false
  end.

(** Login, navigation, the wait or one of the two extractions raises [e],
    the calls before it having returned. *)
Inductive fails_with (E : env) (e : exn) : Prop :=
| login_raises :
    answer (on_login E) = Raises e -> fails_with E e
| navigation_raises :
    answer (on_login E) = Returns tt ->
    answer (on_goto E dashboard 0 DomContentLoaded) = Raises e ->
    fails_with E e
| wait_raises :
    answer (on_login E) = Returns tt ->
    answer (on_goto E dashboard 0 DomContentLoaded) = Returns tt ->
    answer (on_wait_for_selector E "#totalAmt" Visible 10000) = Raises e ->
    fails_with E e
| deposit_extraction_raises :
    answer (on_login E) = Returns tt ->
    answer (on_goto E dashboard 0 DomContentLoaded) = Returns tt ->
    answer (on_wait_for_selector E "#totalAmt" Visible 10000) = Returns tt ->
    answer (on_inner_text E "#totalAmt") = Raises e ->
    fails_with E e
| available_extraction_raises t1 :
    answer (on_login E) = Returns tt ->
    answer (on_goto E dashboard 0 DomContentLoaded) = Returns tt ->
    answer (on_wait_for_selector E "#totalAmt" Visible 10000) = Returns tt ->
    answer (on_inner_text E "#totalAmt") = Returns t1 ->
    answer (on_inner_text E "#divCrntEntrsAmt") = Raises e ->
    fails_with E e.

(** A text grouped by thousands, read from its last character: digits,
    with a comma after every three of them and a digit at both ends. *)
Fixpoint grouped_rev (k : nat) (r : text) : bool :=
  match r with
  | [] => negb (Nat.eqb k 0)
  | c :: r' =>
      if Nat.eqb k 3 then (c =? 44) && grouped_rev 0 r'
      else is_digit c && grouped_rev (S k) r'
  end.

Definition thousands_grouped (s : text) : bool := grouped_rev 0 (rev s).

(** The element named by [selector] shows within [bound] milliseconds. *)
Definition visible_within (s : site) (selector : string) (bound : N) : bool :=
  match state_reached Visible (site_dom s !! selector) with
  | Some v => v <=? bound
  | None => false
  end.

(** ** Pages used as concrete inputs *)

(** A page that loads in [ms] milliseconds, with the two elements showing
    after [v1] and [v2] ([None]: never shown). *)
Definition page_with (ms : N) (t1 : text) (v1 : option N)
  (t2 : text) (v2 : option N) : site :=
  {| site_login := Reply (Returns tt) 2000;
     site_nav := NavLoads ms;
     site_dom :=
       <["#totalAmt" := {| el_text := t1; el_visible_after := v1 |}]>
         (<["#divCrntEntrsAmt" := {| el_text := t2; el_visible_after := v2 |}]>
            ∅) |}.

(** The mocked dashboard of the end-to-end tests. *)
Definition mock_page (t1 t2 : text) : site :=
  page_with 120 t1 (Some 40) t2 (Some 40).

Definition mocked : env :=
  env_of_site (mock_page (str "35,000") (str "20,000원")).

(** Two pages with the texts of the mocked dashboard, one quick, one that
    loads in nine seconds, shows the balance just in time and never shows
    the available amount. *)
Definition quick_page : site :=
  page_with 120 (str "35,000") (Some 40) (str "20,000원") (Some 40).

Definition late_page : site :=
  page_with 9000 (str "35,000") (Some 9999) (str "20,000원") None.

(** A failing login on an otherwise good page. *)
Definition login_fails (e : exn) : site :=
  {| site_login := Reply (Raises e) 500;
     site_nav := NavLoads 120;
     site_dom := site_dom (mock_page (str "35,000") (str "20,000원")) |}.

Definition rejected : exn := Exn OtherException (str "login rejected").

Definition rejecting : env := env_of_site (login_fails rejected).

(** The balance element never shows. *)
Definition hidden_balance : site :=
  page_with 120 (str "35,000") None (str "20,000원") (Some 40).

(** The same on a page that takes an hour to load. *)
Definition slow_hidden : site :=
  page_with 3600000 (str "35,000") None (str "20,000원") (Some 40).

(** ** Further definitions for the properties of the whole program *)

(** The calls [get_balance] makes to the page, in the order of its
    statements (lines 26, 32, 37 and 42 of the source). *)
Definition page_calls : list event :=
  [Goto dashboard 0 DomContentLoaded;
   WaitForSelector "#totalAmt" Visible 10000;
   InnerText "#totalAmt";
   InnerText "#divCrntEntrsAmt"].

(** A page whose navigation never ends, after a login that went well. *)
Definition never_loads : site :=
  {| site_login := Reply (Returns tt) 2000;
     site_nav := NavNever;
     site_dom := site_dom (mock_page (str "35,000") (str "20,000원")) |}.

(** An interruption of the program during login: an exception that is not
    of class [Exception]. *)
Definition interrupted : exn := Exn BaseExceptionOnly (str "").

Definition interrupting : env := env_of_site (login_fails interrupted).

(** Pages with an element text of 4301 digits, one more than [int]
    converts. *)
Definition long_deposit : site := mock_page (ones 4301) (str "20,000원").

Definition long_available : site := mock_page (str "35,000") (ones 4301).

(** An environment in which [context.close()] raises [e], the rest being
    as in [E]. *)
Definition failing_context_close (E : env) (e : exn) : env :=
  {| on_login := on_login E;
     on_goto := on_goto E;
     on_wait_for_selector := on_wait_for_selector E;
     on_inner_text := on_inner_text E;
     on_launch := on_launch E;
     on_new_context := on_new_context E;
     on_new_page := on_new_page E;
     on_print := on_print E;
     on_context_close := Some e;
     on_browser_close := on_browser_close E |}.

(** The browser is gone when the context is closed, after a rejected
    login. *)
Definition disconnected : exn :=
  Exn PlaywrightError (str "Target page, context or browser has been closed").

Definition rejecting_disconnected : env :=
  failing_context_close rejecting disconnected.

(** The number of calls [get_balance] makes to the page: one more than
    the number of its leading calls that return, four at most. *)
Definition calls_made (E : env) : nat :=
  match answer (on_goto E dashboard 0 DomContentLoaded) with
  | Returns _ =>
      match answer (on_wait_for_selector E "#totalAmt" Visible 10000) with
      | Returns _ =>
          match answer (on_inner_text E "#totalAmt") with
          | Returns _ => 4
          | _ => 3
          end
      | _ => 2
      end
  | _ => 1
  end.

(** ** Tactics *)

Ltac unfold_calls :=
  unfold session, login, page_goto, page_wait_for_selector, inner_text,
    external, bind, ret, raise in *.

Ltac reduce_exec := cbn [result trace elapsed answer took app] in *.

(** Case analysis on the answer of the next call to the environment. *)
Ltac next_call :=
  match goal with
  | |- context [answer ?r] =>
      first [ destruct (answer r) as [[]|?|]
            | destruct (answer r) as [?|?|] ];
      cbn [result trace elapsed answer took app]
  end.

(** ** Sanity of the text model *)

Example str_ascii : str "35,000" = [51; 53; 44; 48; 48; 48].
Proof. reflexivity. Qed.

Example str_won : str "원" = [50896].
Proof. reflexivity. Qed.

Example str_deposit_label :
  str "💰 예치금 잔액: "
  = [128176; 32; 50696; 52824; 44552; 32; 51092; 50529; 58; 32].
Proof. reflexivity. Qed.

Example int_of_text_examples :
  int_of_text (str "35000") = Some 35000%Z
  /\ int_of_text (str " -1_000 ") = Some (-1000)%Z
  /\ int_of_text (str "") = None
  /\ int_of_text (str "35,000") = None
  /\ int_of_text (str "1__0") = None.
Proof. repeat split; reflexivity. Qed.

Example format_comma_examples :
  format_comma 35000 = str "35,000"
  /\ format_comma 0 = str "0"
  /\ format_comma 999 = str "999"
  /\ format_comma 1000 = str "1,000"
  /\ format_comma 1234567 = str "1,234,567"
  /\ format_comma (-20000) = str "-20,000".
Proof. repeat split; reflexivity. Qed.

(** ** Lemmas on the parsing step *)

Lemma space_not_digit c : is_space c = true -> is_digit c = false.
Proof.
  unfold is_space, is_digit. intros Hs.
  destruct (N.leb_spec 48 c); [|reflexivity].
  destruct (N.leb_spec c 57); [|reflexivity].
  exfalso. revert Hs.
  repeat match goal with
         | |- context [?a <=? ?b] => destruct (N.leb_spec a b); try lia
         | |- context [?a =? ?b] => destruct (N.eqb_spec a b); try lia
         end; simpl; discriminate.
Qed.

Lemma digit_not_space c : is_digit c = true -> is_space c = false.
Proof.
  intros Hd. destruct (is_space c) eqn:Hs; [|reflexivity].
  apply space_not_digit in Hs. congruence.
Qed.

Lemma re_sub_non_digit s : re_sub non_digit [] s = digits_of s.
Proof.
  unfold digits_of. induction s as [|c s IH]; [reflexivity|].
  simpl. rewrite IH. unfold non_digit. now destruct (is_digit c).
Qed.

Lemma digits_of_lstrip s : digits_of (lstrip s) = digits_of s.
Proof.
  induction s as [|c s IH]; [reflexivity|].
  simpl. destruct (is_space c) eqn:Hs; [|reflexivity].
  rewrite IH. now rewrite (space_not_digit c Hs).
Qed.

Lemma digits_of_rev s : digits_of (rev s) = rev (digits_of s).
Proof.
  unfold digits_of. induction s as [|c s IH]; [reflexivity|].
  simpl. rewrite List.filter_app, IH. simpl.
  destruct (is_digit c); simpl; [reflexivity|now rewrite app_nil_r].
Qed.

Lemma digits_of_strip s : digits_of (strip s) = digits_of s.
Proof.
  unfold strip, rstrip.
  now rewrite digits_of_rev, digits_of_lstrip, digits_of_rev, rev_involutive,
    digits_of_lstrip.
Qed.

Lemma digits_of_all_digits s : forallb is_digit (digits_of s) = true.
Proof.
  unfold digits_of. induction s as [|c s IH]; [reflexivity|].
  simpl. destruct (is_digit c) eqn:Hc; simpl; [now rewrite Hc|exact IH].
Qed.

Lemma lstrip_digits ds : forallb is_digit ds = true -> lstrip ds = ds.
Proof.
  destruct ds as [|c ds]; [reflexivity|].
  simpl. intros H. apply andb_prop in H as [Hc _].
  now rewrite (digit_not_space c Hc).
Qed.

Lemma forallb_rev {A} (f : A -> bool) l : forallb f (rev l) = forallb f l.
Proof.
  induction l as [|a l IH]; [reflexivity|].
  simpl. rewrite forallb_app, IH. simpl. destruct (f a), (forallb f l); reflexivity.
Qed.

Lemma strip_digits ds : forallb is_digit ds = true -> strip ds = ds.
Proof.
  intros H. unfold strip, rstrip.
  rewrite (lstrip_digits ds H), lstrip_digits, rev_involutive; [reflexivity|].
  now rewrite forallb_rev.
Qed.

Lemma int_digits_digits ds : forall acc b,
  forallb is_digit ds = true -> ds <> [] \/ b = true ->
  int_digits acc b ds
  = Some (fold_left (fun a c => (10 * a + (Z.of_N c - 48))%Z) ds acc).
Proof.
  induction ds as [|c ds IH]; intros acc b Hall Hne.
  - destruct Hne as [Hne| ->]; [congruence|reflexivity].
  - simpl in *. apply andb_prop in Hall as [Hc Hds]. rewrite Hc.
    apply IH; [exact Hds|now right].
Qed.

Lemma int_of_text_digits ds :
  forallb is_digit ds = true -> ds <> [] -> within_limit ds = true ->
  int_of_text ds = Some (decimal_value ds).
Proof.
  intros Hall Hne Hlim. unfold int_of_text. rewrite (strip_digits ds Hall).
  destruct ds as [|c r]; [congruence|]. rewrite Hlim. cbn [negb].
  assert (Hc : is_digit c = true) by (simpl in Hall; now apply andb_prop in Hall).
  unfold is_digit in Hc. apply andb_prop in Hc as [H1 H2].
  apply N.leb_le in H1, H2.
  destruct (N.eqb_spec c 43); [lia|]. destruct (N.eqb_spec c 45); [lia|].
  now apply int_digits_digits; [|left].
Qed.

Lemma int_of_text_over_limit ds :
  forallb is_digit ds = true -> within_limit ds = false ->
  int_of_text ds = None.
Proof.
  intros Hall Hlim. unfold int_of_text. rewrite (strip_digits ds Hall).
  destruct ds as [|c r]; [reflexivity|]. now rewrite Hlim.
Qed.

(** The guarded conversion of lines 49 and 50, on what [re.sub] left. *)
Lemma parse_amount raw :
  match re_sub non_digit [] (strip raw) with
  | [] => ret 0%Z
  | _ => py_int (re_sub non_digit [] (strip raw))
  end = amount raw.
Proof.
  rewrite re_sub_non_digit, digits_of_strip. unfold amount.
  pose proof (digits_of_all_digits raw) as Hall.
  destruct (digits_of raw) as [|c r] eqn:Hd; [reflexivity|].
  unfold py_int. destruct (within_limit (c :: r)) eqn:Hlim.
  - rewrite int_of_text_digits; [reflexivity|exact Hall|discriminate|exact Hlim].
  - rewrite (int_of_text_over_limit _ Hall Hlim).
    now rewrite (strip_digits _ Hall), Hlim.
Qed.

Lemma fold_digits_nonneg ds : forall acc,
  (0 <= acc)%Z -> forallb is_digit ds = true ->
  (0 <= fold_left (fun a c => (10 * a + (Z.of_N c - 48))%Z) ds acc)%Z.
Proof.
  induction ds as [|c ds IH]; intros acc Hacc Hall; simpl in *; [exact Hacc|].
  apply andb_prop in Hall as [Hc Hds]. apply IH; [|exact Hds].
  unfold is_digit in Hc. apply andb_prop in Hc as [H1 H2].
  apply N.leb_le in H1, H2. lia.
Qed.

Lemma amount_nonneg t : (0 <= decimal_value (digits_of t))%Z.
Proof.
  apply fold_digits_nonneg; [lia|apply digits_of_all_digits].
Qed.

Lemma digitless_no_digits t : digitless t -> digits_of t = [].
Proof.
  unfold digits_of. intros [->|[H|H]]; [reflexivity|..];
    induction t as [|c t IH]; try reflexivity; simpl in *;
    apply andb_prop in H as [Hc Ht].
  - now rewrite (space_not_digit c Hc), IH.
  - unfold non_digit in Hc. destruct (is_digit c); [discriminate|now apply IH].
Qed.

Lemma digitless_convertible t : digitless t -> convertible t.
Proof.
  intros H. unfold convertible. now rewrite (digitless_no_digits t H).
Qed.

(** ** Lemmas on the printed amounts *)

Lemma list_ind3 {A} (P : list A -> Prop) :
  P [] -> (forall a, P [a]) -> (forall a b, P [a; b]) ->
  (forall a b c, P [a; b; c]) ->
  (forall a b c d r, P (d :: r) -> P (a :: b :: c :: d :: r)) ->
  forall l, P l.
Proof.
  intros H0 H1 H2 H3 H4 l.
  assert (H : P l /\ (forall a, P (a :: l)) /\ (forall a b, P (a :: b :: l))).
  { induction l as [|x l (IH0 & IH1 & IH2)]; [now repeat split|].
    split; [apply IH1|]. split; [intros a; apply IH2|].
    intros a b. destruct l as [|d r]; [apply H3|]. now apply H4. }
  apply H.
Qed.

Lemma digits_rev_all_digits fuel : forall n,
  forallb is_digit (digits_rev fuel n) = true.
Proof.
  induction fuel as [|f IH]; intros n; [reflexivity|].
  simpl. destruct (N.ltb_spec n 10); simpl.
  - rewrite andb_true_r. unfold is_digit.
    apply andb_true_intro. split; apply N.leb_le; lia.
  - rewrite IH, andb_true_r. unfold is_digit.
    assert (Hm : n mod 10 < 10) by now apply N.mod_upper_bound.
    revert Hm. generalize (n mod 10). intros m Hm.
    apply andb_true_intro. split; apply N.leb_le; lia.
Qed.

Lemma digits_rev_nonempty fuel n : digits_rev (S fuel) n <> [].
Proof. simpl. now destruct (n <? 10). Qed.

Lemma group3_rev_grouped ds :
  forallb is_digit ds = true -> ds <> [] ->
  grouped_rev 0 (group3_rev ds) = true.
Proof.
  induction ds as [| a | a b | a b c | a b c d r IH] using list_ind3;
    intros Hall Hne; try congruence.
  - simpl in *. now rewrite Hall.
  - simpl in *. apply andb_prop in Hall as [-> Hall]. now rewrite Hall.
  - simpl in *. apply andb_prop in Hall as [-> Hall].
    apply andb_prop in Hall as [-> Hall]. now rewrite Hall.
  - change (group3_rev (a :: b :: c :: d :: r))
      with (a :: b :: c :: 44 :: group3_rev (d :: r)).
    change (forallb is_digit (a :: b :: c :: d :: r))
      with (is_digit a && (is_digit b && (is_digit c
              && forallb is_digit (d :: r)))) in Hall.
    apply andb_prop in Hall as [Ha Hall]. apply andb_prop in Hall as [Hb Hall].
    apply andb_prop in Hall as [Hc Hall].
    cbn [grouped_rev Nat.eqb]. rewrite Ha, Hb, Hc. cbn [andb].
    rewrite N.eqb_refl. cbn [andb]. now apply IH.
Qed.

Lemma group3_rev_digits ds :
  forallb is_digit ds = true -> digits_of (group3_rev ds) = ds.
Proof.
  unfold digits_of.
  induction ds as [| a | a b | a b c | a b c d r IH] using list_ind3;
    intros Hall.
  - reflexivity.
  - simpl in *. now destruct (is_digit a).
  - simpl in *. now destruct (is_digit a), (is_digit b).
  - simpl in *. now destruct (is_digit a), (is_digit b), (is_digit c).
  - change (group3_rev (a :: b :: c :: d :: r))
      with (a :: b :: c :: 44 :: group3_rev (d :: r)).
    change (forallb is_digit (a :: b :: c :: d :: r))
      with (is_digit a && (is_digit b && (is_digit c
              && forallb is_digit (d :: r)))) in Hall.
    apply andb_prop in Hall as [Ha Hall]. apply andb_prop in Hall as [Hb Hall].
    apply andb_prop in Hall as [Hc Hall].
    cbn [List.filter]. rewrite Ha, Hb, Hc.
    change (is_digit 44) with false. cbv iota. now rewrite IH.
Qed.

Lemma digits_rev_value fuel : forall n,
  n < 2 ^ N.of_nat fuel ->
  fold_right (fun c a => (10 * a + (Z.of_N c - 48))%Z) 0%Z (digits_rev fuel n)
  = Z.of_N n.
Proof.
  induction fuel as [|f IH]; intros n Hn.
  - simpl in *. lia.
  - cbn [digits_rev]. destruct (N.ltb_spec n 10); cbn [fold_right]; [lia|].
    rewrite IH.
    + pose proof (N.div_mod n 10). rewrite N2Z.inj_add, N2Z.inj_mod.
      rewrite N2Z.inj_div. pose proof (Z.div_mod (Z.of_N n) 10).
      change (Z.of_N 48) with 48%Z. change (Z.of_N 10) with 10%Z. lia.
    + rewrite Nat2N.inj_succ, N.pow_succ_r' in Hn.
      apply N.Div0.div_lt_upper_bound. lia.
Qed.

(** Reading back the digits of a formatted amount gives the amount, and
    the formatted amount is grouped by thousands. *)
Lemma format_comma_spec z :
  (0 <= z)%Z ->
  thousands_grouped (format_comma z) = true
  /\ decimal_value (digits_of (format_comma z)) = z.
Proof.
  intros Hz. unfold format_comma, thousands_grouped.
  destruct (Z.ltb_spec z 0); [lia|]. cbn [app].
  set (n := Z.abs_N z). set (fuel := N.to_nat (N.log2 n)).
  pose proof (digits_rev_all_digits (S fuel) n) as Hall.
  split.
  - rewrite rev_involutive.
    apply group3_rev_grouped; [exact Hall|apply digits_rev_nonempty].
  - rewrite digits_of_rev, group3_rev_digits by exact Hall.
    unfold decimal_value. rewrite <- fold_left_rev_right, rev_involutive.
    rewrite digits_rev_value; [subst n; lia|].
    subst fuel. rewrite Nat2N.inj_succ, N2Nat.id.
    destruct (N.eq_dec n 0) as [->|Hn0]; [reflexivity|].
    apply N.log2_spec. lia.
Qed.

(** ** Lemmas on sequencing and on the [try] statement *)

Lemma bind_ext {A B} (m : exec A) (k k' : A -> exec B) :
  (forall a, k a = k' a) -> bind m k = bind m k'.
Proof.
  intros H. unfold bind. destruct (result m); [now rewrite H|reflexivity..].
Qed.

Lemma bind_assoc {A B C} (m : exec A) (k1 : A -> exec B) (k2 : B -> exec C) :
  bind (bind m k1) k2 = bind m (fun a => bind (k1 a) k2).
Proof.
  unfold bind. destruct (result m) as [a| |]; cbn [result trace elapsed];
    [|reflexivity..].
  destruct (result (k1 a)) as [b| |]; cbn [result trace elapsed];
    [|reflexivity..].
  now rewrite app_assoc, N.add_assoc.
Qed.

Lemma bind_returns {A B} (m : exec A) (k : A -> exec B) a :
  result m = Returns a ->
  bind m k = Exec (result (k a)) (trace m ++ trace (k a)) (elapsed m + elapsed (k a)).
Proof. intros H. unfold bind. now rewrite H. Qed.

Lemma bind_raises {A B} (m : exec A) (k : A -> exec B) e :
  result m = Raises e -> bind m k = Exec (Raises e) (trace m) (elapsed m).
Proof. intros H. unfold bind. now rewrite H. Qed.

Lemma bind_blocks {A B} (m : exec A) (k : A -> exec B) :
  result m = Blocks -> bind m k = Exec Blocks (trace m) (elapsed m).
Proof. intros H. unfold bind. now rewrite H. Qed.

Lemma bind_raises_eq {A B} (m : exec A) (k : A -> exec B) e tr t :
  m = Exec (Raises e) tr t -> bind m k = Exec (Raises e) tr t.
Proof. now intros ->. Qed.

Lemma bind_blocks_eq {A B} (m : exec A) (k : A -> exec B) tr t :
  m = Exec Blocks tr t -> bind m k = Exec Blocks tr t.
Proof. now intros ->. Qed.

Lemma bind_trace {A B} (m : exec A) (k : A -> exec B) :
  trace (bind m k)
  = trace m ++ match result m with Returns a => trace (k a) | _ => [] end.
Proof.
  unfold bind. destruct (result m); cbn [trace]; now rewrite ?app_nil_r.
Qed.

Lemma try_except_result {A} (m : exec A) (h : exn -> exec A) :
  result (try_except m h)
  = match result m with
    | Raises e => if is_Exception e then result (h e) else Raises e
    | r => r
    end
  /\ trace (try_except m h)
     = trace m ++ match result m with
                  | Raises e => if is_Exception e then trace (h e) else []
                  | _ => []
                  end.
Proof.
  unfold try_except. destruct (result m) as [a|e|] eqn:Hm;
    rewrite ?Hm, ?app_nil_r; try (now split).
  destruct (is_Exception e); cbn [result trace]; rewrite ?Hm, ?app_nil_r;
    now split.
Qed.

Lemma try_finally_result {A} (m : exec A) (f : exec unit) :
  result (try_finally m f)
  = match result m with
    | Blocks => Blocks
    | r => match result f with
           | Returns _ => r
           | Raises e' => Raises e'
           | Blocks => Blocks
           end
    end
  /\ trace (try_finally m f)
     = trace m ++ match result m with Blocks => [] | _ => trace f end.
Proof.
  unfold try_finally. destruct (result m) as [a|e|] eqn:Hm;
    cbn [result trace]; rewrite ?Hm, ?app_nil_r; now split.
Qed.

(** ** Lemmas on [get_balance] *)

(** [get_balance] with the parsing of lines 46 to 55 summed up. *)
Lemma get_balance_eq E :
  get_balance E
  = (page_goto E dashboard 0 DomContentLoaded ;;
     page_wait_for_selector E "#totalAmt" Visible 10000 ;;
     t1 <- inner_text E "#totalAmt" ;;
     t2 <- inner_text E "#divCrntEntrsAmt" ;;
     Exec (converted t1 t2) [] 0).
Proof.
  unfold get_balance, locator, dashboard.
  apply bind_ext; intros _. apply bind_ext; intros _.
  apply bind_ext; intros t1. apply bind_ext; intros t2.
  cbv zeta. rewrite !parse_amount. unfold amount, converted.
  now destruct (within_limit (digits_of t1)), (within_limit (digits_of t2)).
Qed.

Lemma lookup_deposit x y : balance_info x y !! "deposit_balance" = Some x.
Proof. unfold balance_info. now rewrite lookup_insert_eq. Qed.

Lemma lookup_available x y : balance_info x y !! "available_amount" = Some y.
Proof.
  unfold balance_info. rewrite lookup_insert_ne by discriminate.
  now rewrite lookup_insert_eq.
Qed.

Lemma get_balance_extracts_trace E t1 t2 :
  extracts E t1 t2 -> trace (get_balance E) = page_calls.
Proof.
  intros (H1 & H2 & H3 & H4). rewrite get_balance_eq.
  unfold_calls. reduce_exec.
  rewrite H1. reduce_exec. rewrite H2. reduce_exec.
  rewrite H3. reduce_exec. rewrite H4. reduce_exec. reflexivity.
Qed.

Lemma get_balance_extracts E t1 t2 :
  extracts E t1 t2 -> convertible t1 -> convertible t2 ->
  result (get_balance E)
  = Returns (balance_info (decimal_value (digits_of t1))
                          (decimal_value (digits_of t2)))
  /\ trace (get_balance E) = page_calls.
Proof.
  intros Hx Hc1 Hc2. split; [|exact (get_balance_extracts_trace E t1 t2 Hx)].
  destruct Hx as (H1 & H2 & H3 & H4). rewrite get_balance_eq.
  unfold_calls. reduce_exec.
  rewrite H1. reduce_exec. rewrite H2. reduce_exec.
  rewrite H3. reduce_exec. rewrite H4. reduce_exec.
  unfold convertible in Hc1, Hc2. unfold converted. now rewrite Hc1, Hc2.
Qed.

(** A text with too many digits makes [int] raise once the four calls
    have returned. *)
Lemma get_balance_over_limit E t1 t2 :
  extracts E t1 t2 ->
  within_limit (digits_of t1) = false \/ within_limit (digits_of t2) = false ->
  exists e, result (get_balance E) = Raises e /\ exn_cls e = ValueError.
Proof.
  intros (H1 & H2 & H3 & H4) Hover. rewrite get_balance_eq.
  unfold_calls. reduce_exec.
  rewrite H1. reduce_exec. rewrite H2. reduce_exec.
  rewrite H3. reduce_exec. rewrite H4. reduce_exec.
  unfold converted. destruct (within_limit (digits_of t1)) eqn:L1.
  - destruct Hover as [Hover|Hover]; [discriminate|]. rewrite Hover.
    now eexists.
  - now eexists.
Qed.

Lemma get_balance_returns_inv E d :
  result (get_balance E) = Returns d ->
  exists t1 t2,
    extracts E t1 t2 /\ convertible t1 /\ convertible t2
    /\ d = balance_info (decimal_value (digits_of t1))
                        (decimal_value (digits_of t2)).
Proof.
  rewrite get_balance_eq. unfold extracts, convertible. unfold_calls. reduce_exec.
  destruct (answer (on_goto E dashboard 0 DomContentLoaded)) as [[]|?|] eqn:H1;
    reduce_exec; try discriminate.
  destruct (answer (on_wait_for_selector E "#totalAmt" Visible 10000))
    as [[]|?|] eqn:H2; reduce_exec; try discriminate.
  destruct (answer (on_inner_text E "#totalAmt")) as [t1|?|] eqn:H3;
    reduce_exec; try discriminate.
  destruct (answer (on_inner_text E "#divCrntEntrsAmt")) as [t2|?|] eqn:H4;
    reduce_exec; try discriminate.
  unfold converted.
  destruct (within_limit (digits_of t1)) eqn:L1; try discriminate.
  destruct (within_limit (digits_of t2)) eqn:L2; try discriminate.
  intros [= <-]. now exists t1, t2.
Qed.

Lemma get_balance_trace_calls E :
  forallb is_page_call (trace (get_balance E)) = true.
Proof.
  rewrite get_balance_eq. unfold_calls. reduce_exec.
  repeat next_call; reflexivity.
Qed.

(** ** Lemmas on the session and on [run] *)

Lemma session_cases E :
  match answer (on_login E) with
  | Returns _ =>
      result (session E) = result (get_balance E)
      /\ trace (session E) = Login :: trace (get_balance E)
  | Raises e => result (session E) = Raises e /\ trace (session E) = [Login]
  | Blocks => result (session E) = Blocks /\ trace (session E) = [Login]
  end.
Proof.
  unfold session, login, external, bind. cbn [result trace elapsed].
  destruct (answer (on_login E)); cbn [result trace app]; now split.
Qed.

Lemma session_trace_calls E : forallb is_page_call (trace (session E)) = true.
Proof.
  pose proof (session_cases E) as H.
  destruct (answer (on_login E)); destruct H as [_ ->]; [|reflexivity..].
  cbn [forallb is_page_call]. apply get_balance_trace_calls.
Qed.

Lemma filter_page_calls (p : event -> bool) l :
  (forall ev, is_page_call ev = true -> p ev = false) ->
  forallb is_page_call l = true -> List.filter p l = [].
Proof.
  intros Hp. induction l as [|ev l IH]; [reflexivity|].
  simpl. intros H. apply andb_prop in H as [Hev Hl].
  now rewrite (Hp ev Hev), IH.
Qed.

Lemma session_returns_balance_info E d :
  result (session E) = Returns d -> exists x y, d = balance_info x y.
Proof.
  pose proof (session_cases E) as Hc.
  destruct (answer (on_login E)) as [[]| |]; destruct Hc as [-> _];
    try discriminate.
  intros Hs. apply get_balance_returns_inv in Hs as (t1 & t2 & _ & _ & _ & ->). eauto.
Qed.

Lemma session_raises E e : fails_with E e -> result (session E) = Raises e.
Proof.
  pose proof (session_cases E) as Hc.
  intros [H0|H0 H1|H0 H1 H2|H0 H1 H2 H3|t1 H0 H1 H2 H3 H4];
    rewrite H0 in Hc; destruct Hc as [-> _]; try reflexivity;
    rewrite get_balance_eq; unfold_calls; reduce_exec;
    rewrite H1; reduce_exec; try reflexivity;
    rewrite H2; reduce_exec; try reflexivity;
    rewrite H3; reduce_exec; try reflexivity;
    rewrite H4; reduce_exec; reflexivity.
Qed.

Lemma run_unfold E :
  run E
  = (chromium_launch E true ;; new_context E ;; new_page E ;; guarded E).
Proof.
  unfold run, guarded, session.
  do 3 (apply bind_ext; intros _). now rewrite bind_assoc.
Qed.

Lemma report_balance_info E x y :
  report E (balance_info x y)
  = (print E (deposit_line x) ;; print E (available_line y) ;;
     ret (balance_info x y)).
Proof.
  unfold report, getitem. rewrite lookup_deposit.
  unfold bind at 1. cbn [result trace elapsed ret].
  unfold deposit_line, available_line.
  assert (Hk : forall (m : exec unit) (k k' : exec (gmap string Z)),
             k = k' ->
             Exec (result (bind m (fun _ => k))) ([] ++ trace (bind m (fun _ => k)))
                  (0 + elapsed (bind m (fun _ => k)))
             = bind m (fun _ => k')).
  { intros m k k' <-. cbn [app]. rewrite N.add_0_l. now destruct (bind m _). }
  apply Hk. rewrite lookup_available. unfold bind at 1.
  cbn [result trace elapsed ret app]. rewrite N.add_0_l.
  now destruct (bind _ _).
Qed.

(** Either the browser, the context and the page are acquired and [run]
    is its [try] statement after three events, or an acquisition raises
    and [run] stops there. *)
Lemma run_cases E :
  (acquired E
   /\ result (run E) = result (guarded E)
   /\ trace (run E) = [Launch true; NewContext; NewPage] ++ trace (guarded E))
  \/ (~ acquired E
      /\ (exists e, result (run E) = Raises e)
      /\ incl (trace (run E)) [Launch true; NewContext; NewPage]).
Proof.
  rewrite run_unfold. unfold acquired.
  set (G := guarded E). clearbody G.
  unfold chromium_launch, new_context, new_page, direct, bind.
  destruct (on_launch E) as [e1|]; cbn [result trace elapsed app].
  { right. split; [intros [H _]; discriminate|].
    split; [now eexists|]. intros ev [<-|[]]. now left. }
  destruct (on_new_context E) as [e2|]; cbn [result trace elapsed app].
  { right. split; [intros (_ & H & _); discriminate|].
    split; [now eexists|]. intros ev [<-|[<-|[]]]; cbn; auto. }
  destruct (on_new_page E) as [e3|]; cbn [result trace elapsed app].
  { right. split; [intros (_ & _ & H); discriminate|].
    split; [now eexists|]. intros ev [<-|[<-|[<-|[]]]]; cbn; auto. }
  left. split; [now repeat split|]. now destruct (result G).
Qed.


(** The [try] statement, opened on the outcome of the body and of the
    handler. *)
Ltac open_guarded :=
  unfold guarded;
  match goal with
  | |- context [try_finally ?X ?F] =>
      destruct (try_finally_result X F) as [-> ->]
  end;
  match goal with
  | |- context [try_except ?B ?H] =>
      destruct (try_except_result B H) as [-> ->]
  end.

Ltac eval_calls :=
  unfold on_error, release, print, context_close, browser_close, direct,
    bind, ret, raise;
  cbn [result trace elapsed app].

Ltac split_calls :=
  repeat match goal with
         | |- context [on_print ?E ?l] =>
             destruct (on_print E l); cbn [result trace elapsed app]
         | |- context [is_Exception ?e] =>
             destruct (is_Exception e); cbn [result trace elapsed app]
         | |- context [on_context_close ?E] =>
             destruct (on_context_close E); cbn [result trace elapsed app]
         | |- context [on_browser_close ?E] =>
             destruct (on_browser_close E); cbn [result trace elapsed app]
         end.

(** The [try] statement blocks when the session does, and then adds
    nothing; otherwise it comes back, having added printed lines and
    closes only. *)
Lemma guarded_shape E :
  match result (session E) with
  | Blocks =>
      result (guarded E) = Blocks /\ trace (guarded E) = trace (session E)
  | _ =>
      result (guarded E) <> Blocks
      /\ exists tail,
          trace (guarded E) = trace (session E) ++ tail
          /\ forallb is_epilogue tail = true
  end.
Proof.
  destruct (result (session E)) as [d|e|] eqn:Hs.
  - destruct (session_returns_balance_info E d Hs) as (x & y & ->).
    open_guarded. rewrite (bind_returns _ _ _ Hs), report_balance_info.
    eval_calls. split_calls; rewrite <- ?app_assoc; cbn [app];
      (split; [discriminate|eexists; split; [reflexivity|reflexivity]]).
  - open_guarded. rewrite (bind_raises _ _ _ Hs).
    cbn [result trace]. eval_calls.
    split_calls; rewrite <- ?app_assoc; cbn [app];
      (split; [discriminate|eexists; split; [reflexivity|reflexivity]]).
  - open_guarded. rewrite (bind_blocks _ _ Hs). cbn [result trace].
    now rewrite !app_nil_r.
Qed.
(** ** The parsing step *)

(** C1, as amended. When the two element texts hold 4300 digit characters
    at most each, [get_balance] returns, in each field, the integer
    written by the digit characters ['0'..'9'] of the text of its element,
    taken in their order and read in base 10. *)
Theorem get_balance_reads_digits E t1 t2 :
  extracts E t1 t2 ->
  convertible t1 -> convertible t2 ->
  result (get_balance E)
  = Returns (balance_info (decimal_value (digits_of t1))
                          (decimal_value (digits_of t2))).
Proof.
  intros H H1 H2. exact (proj1 (get_balance_extracts E t1 t2 H H1 H2)).
Qed.

(** End to end: the texts "35,000" and "20,000원" give 35000 and 20000. *)
Lemma get_balance_reads_digits_witness :
  extracts (env_of_site (mock_page (str "35,000") (str "20,000원")))
           (str "35,000") (str "20,000원")
  /\ result (get_balance (env_of_site (mock_page (str "35,000") (str "20,000원"))))
     = Returns (balance_info 35000 20000).
Proof.
  split; [repeat split|].
  apply (get_balance_reads_digits _ (str "35,000") (str "20,000원"));
    [repeat split|reflexivity|reflexivity].
Defined.

(** C1 as it was stated fails: on a deposit text of 4301 digits the page
    gives both texts and [get_balance] raises the [ValueError] of [int]
    instead of returning the number the digits write. *)
Lemma get_balance_reads_digits_counterexample :
  extracts (env_of_site long_deposit) (ones 4301) (str "20,000원")
  /\ result (get_balance (env_of_site long_deposit)) = Raises too_long
  /\ result (get_balance (env_of_site long_deposit))
     <> Returns (balance_info (decimal_value (digits_of (ones 4301)))
                              (decimal_value (digits_of (str "20,000원")))).
Proof.
  assert (H : result (get_balance (env_of_site long_deposit)) = Raises too_long)
    by (vm_compute; reflexivity).
  split; [repeat split|]. split; [exact H|]. rewrite H. discriminate.
Qed.

(** C2. A text that is empty, made of white space only, or without any
    digit gives the value 0 in its field and its parsing does not raise:
    [get_balance] returns, the other text being one that [int] converts. *)
Theorem get_balance_digitless_zero E t1 t2 key t :
  extracts E t1 t2 ->
  (key = "deposit_balance" /\ t = t1 /\ convertible t2)
  \/ (key = "available_amount" /\ t = t2 /\ convertible t1) ->
  digitless t ->
  exists d, result (get_balance E) = Returns d /\ d !! key = Some 0%Z.
Proof.
  intros Hx Hkey Ht. pose proof (digitless_convertible t Ht) as Hc.
  apply digitless_no_digits in Ht.
  destruct Hkey as [(-> & -> & Hc2)|(-> & -> & Hc1)].
  - destruct (get_balance_extracts E t1 t2 Hx Hc Hc2) as [Hr _].
    eexists. split; [exact Hr|]. rewrite Ht. apply lookup_deposit.
  - destruct (get_balance_extracts E t1 t2 Hx Hc1 Hc) as [Hr _].
    eexists. split; [exact Hr|]. rewrite Ht. apply lookup_available.
Qed.

(** An available-amount element holding only "원". *)
Lemma get_balance_digitless_zero_witness :
  exists d,
    result (get_balance (env_of_site (mock_page (str "35,000") (str "원"))))
    = Returns d
    /\ d !! "available_amount" = Some 0%Z.
Proof.
  apply (get_balance_digitless_zero _ (str "35,000") (str "원")
           "available_amount" (str "원")).
  - repeat split.
  - right. repeat split.
  - right. right. reflexivity.
Defined.

(** C7, as amended. Every dict [get_balance] returns has exactly the two
    fields, both non-negative integers, each of them 0 when the text of
    its element holds no digit; [get_balance] does return one whenever
    the page gives two texts of 4300 digits at most; and a text with more
    digits makes it raise a [ValueError]. *)
Theorem get_balance_result_invariant E :
  (forall t1 t2,
      extracts E t1 t2 -> convertible t1 -> convertible t2 ->
      exists d, result (get_balance E) = Returns d)
  /\ (forall d, result (get_balance E) = Returns d ->
      exists t1 t2 x y,
        extracts E t1 t2
        /\ d = balance_info x y
        /\ dom d = {["deposit_balance"; "available_amount"]}
        /\ (0 <= x)%Z /\ (0 <= y)%Z
        /\ (digitless t1 -> x = 0%Z) /\ (digitless t2 -> y = 0%Z))
  /\ (forall t1 t2,
      extracts E t1 t2 ->
      within_limit (digits_of t1) = false \/ within_limit (digits_of t2) = false ->
      exists e, result (get_balance E) = Raises e /\ exn_cls e = ValueError).
Proof.
  split; [|split].
  - intros t1 t2 Hx H1 H2. eexists.
    exact (proj1 (get_balance_extracts E t1 t2 Hx H1 H2)).
  - intros d Hd.
    apply get_balance_returns_inv in Hd as (t1 & t2 & Hx & _ & _ & ->).
    exists t1, t2, (decimal_value (digits_of t1)), (decimal_value (digits_of t2)).
    split; [exact Hx|]. split; [reflexivity|]. split.
    { unfold balance_info. rewrite !dom_insert_L, dom_empty_L. set_solver. }
    split; [apply amount_nonneg|]. split; [apply amount_nonneg|].
    split; intros H; now rewrite (digitless_no_digits _ H).
  - intros t1 t2 Hx Hover. exact (get_balance_over_limit E t1 t2 Hx Hover).
Qed.

Lemma get_balance_result_invariant_witness :
  (exists d,
     result (get_balance (env_of_site (mock_page (str "  ") (str "원")))) = Returns d)
  /\ (exists t1 t2 x y,
        extracts (env_of_site (mock_page (str "  ") (str "원"))) t1 t2
        /\ balance_info 0 0 = balance_info x y
        /\ dom (balance_info 0 0) = {["deposit_balance"; "available_amount"]}
        /\ (0 <= x)%Z /\ (0 <= y)%Z
        /\ (digitless t1 -> x = 0%Z) /\ (digitless t2 -> y = 0%Z))
  /\ (exists e,
        result (get_balance (env_of_site long_available)) = Raises e
        /\ exn_cls e = ValueError).
Proof.
  split; [|split].
  - apply (proj1 (get_balance_result_invariant _) (str "  ") (str "원"));
      [repeat split|reflexivity|reflexivity].
  - apply (proj1 (proj2 (get_balance_result_invariant
                    (env_of_site (mock_page (str "  ") (str "원")))))).
    reflexivity.
  - apply (proj2 (proj2 (get_balance_result_invariant (env_of_site long_available)))
             (str "35,000") (ones 4301)).
    + repeat split.
    + right. vm_compute. reflexivity.
Defined.

(** C7 as it was stated fails: an available-amount text of 4301 digits is
    one [int] does not parse, and the field is not 0: the operation fails
    with the [ValueError]. *)
Lemma get_balance_result_invariant_counterexample :
  extracts (env_of_site long_available) (str "35,000") (ones 4301)
  /\ result (get_balance (env_of_site long_available)) = Raises too_long
  /\ ~ exists d, result (get_balance (env_of_site long_available)) = Returns d.
Proof.
  assert (H : result (get_balance (env_of_site long_available)) = Raises too_long)
    by (vm_compute; reflexivity).
  split; [repeat split|]. split; [exact H|]. rewrite H. now intros [d Hd].
Qed.

(** C9. The returned dict depends on the two element texts only: two calls
    of [get_balance], in whatever environments, that read the same deposit
    text and the same available-amount text return equal dicts. *)
Theorem get_balance_deterministic E1 E2 t1 t2 d1 d2 :
  answer (on_inner_text E1 "#totalAmt") = Returns t1 ->
  answer (on_inner_text E2 "#totalAmt") = Returns t1 ->
  answer (on_inner_text E1 "#divCrntEntrsAmt") = Returns t2 ->
  answer (on_inner_text E2 "#divCrntEntrsAmt") = Returns t2 ->
  result (get_balance E1) = Returns d1 ->
  result (get_balance E2) = Returns d2 ->
  d1 = d2.
Proof.
  intros Ha1 Ha2 Hb1 Hb2 Hd1 Hd2.
  apply get_balance_returns_inv in Hd1
    as (u1 & u2 & (_ & _ & Hu1 & Hu2) & _ & _ & ->).
  apply get_balance_returns_inv in Hd2
    as (w1 & w2 & (_ & _ & Hw1 & Hw2) & _ & _ & ->).
  congruence.
Qed.

(** Two pages that differ in loading time and in when the elements show,
    with the same texts. *)
Lemma get_balance_deterministic_witness :
  result (get_balance (env_of_site quick_page)) = Returns (balance_info 35000 20000)
  /\ result (get_balance (env_of_site late_page)) = Returns (balance_info 35000 20000)
  /\ balance_info 35000 20000 = balance_info 35000 20000.
Proof.
  split; [reflexivity|]. split; [reflexivity|].
  apply (get_balance_deterministic
           (env_of_site quick_page) (env_of_site late_page)
           (str "35,000") (str "20,000원")); reflexivity.
Defined.


(** ** The session wrapper *)

Lemma filter_prints (p : event -> bool) l :
  (forall line, p (Print line) = false) ->
  forallb is_print l = true -> List.filter p l = [].
Proof.
  intros Hp. induction l as [|ev l IH]; [reflexivity|].
  cbn [forallb List.filter]. intros H. apply andb_prop in H as [Hev Hl].
  destruct ev; try discriminate. now rewrite Hp, IH.
Qed.

(** When [context.close()] returns and the session comes back, the [try]
    statement adds printed lines, then the two closes. *)
Lemma guarded_closes E :
  on_context_close E = None ->
  result (session E) <> Blocks ->
  result (guarded E) <> Blocks
  /\ exists printed,
      trace (guarded E)
      = trace (session E) ++ printed ++ [ContextClose; BrowserClose]
      /\ forallb is_print printed = true.
Proof.
  intros Hcc Hnb. destruct (result (session E)) as [d|e|] eqn:Hs;
    [| |congruence].
  - destruct (session_returns_balance_info E d Hs) as (x & y & ->).
    open_guarded. rewrite (bind_returns _ _ _ Hs), report_balance_info.
    eval_calls. rewrite Hcc. cbn [result trace elapsed app].
    split_calls; rewrite <- ?app_assoc; cbn [app];
      (split; [discriminate|]);
      first [ exists []; split; reflexivity
            | eexists [_]; split; reflexivity
            | eexists [_; _]; split; reflexivity
            | eexists [_; _; _]; split; reflexivity ].
  - open_guarded. rewrite (bind_raises _ _ _ Hs).
    cbn [result trace]. eval_calls. rewrite Hcc. cbn [result trace elapsed app].
    split_calls; rewrite <- ?app_assoc; cbn [app];
      (split; [discriminate|]);
      first [ exists []; split; reflexivity
            | eexists [_]; split; reflexivity
            | eexists [_; _]; split; reflexivity
            | eexists [_; _; _]; split; reflexivity ].
Qed.

(** C3, as amended. When the browser, the context and the page have been
    acquired and [context.close()] returns, then whenever [run] comes
    back, by returning or by raising, the trace holds exactly one
    [context.close()] and exactly one [browser.close()], and they are its
    last two events. *)
Theorem run_releases_once E :
  acquired E ->
  on_context_close E = None ->
  result (run E) <> Blocks ->
  length (List.filter is_context_close (trace (run E))) = 1%nat
  /\ length (List.filter is_browser_close (trace (run E))) = 1%nat
  /\ exists before, trace (run E) = before ++ [ContextClose; BrowserClose].
Proof.
  intros Hacq Hcc Hnb.
  destruct (run_cases E) as [(_ & Hr & Ht)|(Hna & _)]; [|contradiction].
  rewrite Hr in Hnb. rewrite Ht.
  pose proof (guarded_shape E) as Hsh.
  assert (Hs : result (session E) <> Blocks).
  { intros Hb. rewrite Hb in Hsh. now destruct Hsh. }
  destruct (guarded_closes E Hcc Hs) as (_ & printed & -> & Hp).
  pose proof (session_trace_calls E) as Hc.
  rewrite !List.filter_app.
  rewrite (filter_page_calls is_context_close (trace (session E)))
    by (try exact Hc; now intros []).
  rewrite (filter_page_calls is_browser_close (trace (session E)))
    by (try exact Hc; now intros []).
  rewrite (filter_prints is_context_close printed) by (try exact Hp; reflexivity).
  rewrite (filter_prints is_browser_close printed) by (try exact Hp; reflexivity).
  repeat split.
  exists ([Launch true; NewContext; NewPage] ++ trace (session E) ++ printed).
  now rewrite <- !app_assoc.
Qed.

Lemma run_releases_once_witness :
  result (run rejecting) <> Blocks
  /\ length (List.filter is_context_close (trace (run rejecting))) = 1%nat
  /\ length (List.filter is_browser_close (trace (run rejecting))) = 1%nat
  /\ exists before, trace (run rejecting) = before ++ [ContextClose; BrowserClose].
Proof.
  split; [discriminate|].
  apply (run_releases_once rejecting); [now repeat split|reflexivity|discriminate].
Defined.

(** C3 as it was stated fails: after a rejected login, when
    [context.close()] raises in the [finally] suite, [run] comes back and
    [browser.close()] has not been called. *)
Lemma run_releases_once_counterexample :
  fails_with rejecting_disconnected rejected
  /\ result (run rejecting_disconnected) = Raises disconnected
  /\ trace (run rejecting_disconnected)
     = [Launch true; NewContext; NewPage; Login;
        Print (str "❌ Error: login rejected"); ContextClose]
  /\ length (List.filter is_browser_close (trace (run rejecting_disconnected)))
     = 0%nat.
Proof.
  split; [apply login_raises; reflexivity|]. now repeat split.
Qed.

(** What the [try] statement does with an exception of the session. *)
Lemma guarded_raises E e :
  result (session E) = Raises e ->
  closes E ->
  (is_Exception e = true ->
   on_print E (str "❌ Error: " ++ exn_str e) = None ->
   result (guarded E) = Raises e
   /\ trace (guarded E)
      = trace (session E)
          ++ [Print (str "❌ Error: " ++ exn_str e); ContextClose; BrowserClose])
  /\ (is_Exception e = false ->
      result (guarded E) = Raises e
      /\ trace (guarded E) = trace (session E) ++ [ContextClose; BrowserClose]).
Proof.
  intros Hs [Hcc Hbc]. split.
  - intros He Hp. open_guarded. rewrite (bind_raises _ _ _ Hs).
    cbn [result trace]. rewrite He. eval_calls. rewrite Hp, Hcc, Hbc.
    cbn [result trace elapsed app]. now rewrite <- app_assoc.
  - intros He. open_guarded. rewrite (bind_raises _ _ _ Hs).
    cbn [result trace]. rewrite He. eval_calls. rewrite Hcc, Hbc.
    cbn [result trace elapsed app]. now rewrite app_nil_r.
Qed.




(** X7. An exception that is not of class [Exception] goes through [run]
    unchanged as well when the two closes return, after the release, but
    no line is printed for it: the handler names [Exception]. *)
Lemma run_base_exception E e :
  acquired E ->
  closes E ->
  fails_with E e ->
  is_Exception e = false ->
  result (run E) = Raises e
  /\ trace (run E)
     = [Launch true; NewContext; NewPage]
         ++ trace (session E) ++ [ContextClose; BrowserClose].
Proof.
  intros Hacq Hcl Hf He. apply session_raises in Hf.
  destruct (run_cases E) as [(_ & -> & ->)|(Hna & _)]; [|contradiction].
  destruct (proj2 (guarded_raises E e Hf Hcl) He) as [-> ->]. now split.
Qed.

(** An interruption during login: nothing is printed, the context and
    the browser are closed, the interruption reaches the caller. *)
Lemma run_base_exception_witness :
  result (run interrupting) = Raises interrupted
  /\ trace (run interrupting)
     = [Launch true; NewContext; NewPage]
         ++ trace (session interrupting) ++ [ContextClose; BrowserClose].
Proof.
  apply (run_base_exception interrupting interrupted);
    [now repeat split|now split| |reflexivity].
  apply login_raises. reflexivity.
Defined.

(** [run] returns only when the session has returned and the two lines
    have been printed and the two closes made, all returning. *)
Lemma guarded_returns_inv E d :
  result (guarded E) = Returns d ->
  result (session E) = Returns d
  /\ exists x y,
      d = balance_info x y
      /\ trace (guarded E)
         = trace (session E)
             ++ [Print (deposit_line x); Print (available_line y);
                 ContextClose; BrowserClose].
Proof.
  destruct (result (session E)) as [d'|e|] eqn:Hs.
  - destruct (session_returns_balance_info E d' Hs) as (x & y & ->).
    open_guarded. rewrite (bind_returns _ _ _ Hs), report_balance_info.
    eval_calls. split_calls; try discriminate.
    intros [= <-]. split; [reflexivity|]. exists x, y.
    split; [reflexivity|]. now rewrite <- ?app_assoc, ?app_nil_r.
  - open_guarded. rewrite (bind_raises _ _ _ Hs). cbn [result trace].
    eval_calls. split_calls; discriminate.
  - open_guarded. rewrite (bind_blocks _ _ Hs). discriminate.
Qed.

(** C8. When [run] returns, what it returns is the dict [get_balance]
    returned, and the lines it has printed are exactly two: the deposit
    line and the available-amount line, each made of its label, the
    amount grouped by thousands with commas, and the unit "원". *)
Theorem run_prints_and_returns E d :
  result (run E) = Returns d ->
  result (get_balance E) = Returns d
  /\ exists x y,
      d = balance_info x y
      /\ List.filter is_print (trace (run E))
         = [Print (str "💰 예치금 잔액: " ++ format_comma x ++ str "원");
            Print (str "🛒 구매가능: " ++ format_comma y ++ str "원")]
      /\ thousands_grouped (format_comma x) = true
      /\ decimal_value (digits_of (format_comma x)) = x
      /\ thousands_grouped (format_comma y) = true
      /\ decimal_value (digits_of (format_comma y)) = y.
Proof.
  intros Hr.
  destruct (run_cases E) as [(_ & Hg & Ht)|(_ & [e He] & _)]; [|congruence].
  rewrite Hg in Hr. apply guarded_returns_inv in Hr as (Hs & x & y & -> & Hgt).
  assert (Hgb : result (get_balance E) = Returns (balance_info x y)).
  { pose proof (session_cases E) as Hc.
    destruct (answer (on_login E)); destruct Hc as [Hc _]; congruence. }
  split; [exact Hgb|].
  apply get_balance_returns_inv in Hgb as (t1 & t2 & _ & _ & _ & Hd).
  exists x, y. split; [reflexivity|]. split.
  - rewrite Ht, Hgt, !List.filter_app.
    rewrite (filter_page_calls is_print (trace (session E)))
      by (try apply session_trace_calls; now intros []).
    reflexivity.
  - assert (Hx : x = decimal_value (digits_of t1)
                 /\ y = decimal_value (digits_of t2)).
    { pose proof (f_equal (fun m => m !! "deposit_balance") Hd) as H1.
      pose proof (f_equal (fun m => m !! "available_amount") Hd) as H2.
      cbv beta in H1, H2. rewrite !lookup_deposit in H1.
      rewrite !lookup_available in H2. split; congruence. }
    destruct Hx as [-> ->].
    pose proof (format_comma_spec _ (amount_nonneg t1)) as [? ?].
    pose proof (format_comma_spec _ (amount_nonneg t2)) as [? ?].
    now repeat split.
Qed.

Lemma run_prints_and_returns_witness :
  result (get_balance mocked) = Returns (balance_info 35000 20000)
  /\ exists x y,
      balance_info 35000 20000 = balance_info x y
      /\ List.filter is_print (trace (run mocked))
         = [Print (str "💰 예치금 잔액: " ++ format_comma x ++ str "원");
            Print (str "🛒 구매가능: " ++ format_comma y ++ str "원")]
      /\ thousands_grouped (format_comma x) = true
      /\ decimal_value (digits_of (format_comma x)) = x
      /\ thousands_grouped (format_comma y) = true
      /\ decimal_value (digits_of (format_comma y)) = y.
Proof.
  apply (run_prints_and_returns mocked (balance_info 35000 20000)).
  reflexivity.
Defined.

Example run_mocked_prints :
  List.filter is_print (trace (run mocked))
  = [Print (str "💰 예치금 잔액: 35,000원"); Print (str "🛒 구매가능: 20,000원")].
Proof. vm_compute. reflexivity. Qed.
(** ** Waiting and navigation, on a page in time *)

Lemma wait_bounded s (selector : string) st (timeout : N) :
  timeout <> 0 ->
  took (site_wait_for_selector s selector st timeout) <= timeout.
Proof.
  intros Hne. unfold site_wait_for_selector, deadline, in_time.
  destruct (state_reached st (site_dom s !! selector)) as [v|].
  - destruct (N.eqb_spec timeout 0); [contradiction|].
    destruct (N.leb_spec v timeout); simpl; lia.
  - destruct (N.eqb_spec timeout 0); [contradiction|]. simpl; lia.
Qed.

(** C5. The wait for "#totalAmt" to show takes 10000 milliseconds at
    most.  On a page that loads and where the element does not show
    within that bound, [get_balance] raises a [TimeoutError] after
    exactly that time; its only calls have been the navigation and the
    wait, so that no text is read and no dict is built. *)
Theorem get_balance_visibility_timeout s ms :
  site_nav s = NavLoads ms ->
  visible_within s "#totalAmt" 10000 = false ->
  took (on_wait_for_selector (env_of_site s) "#totalAmt" Visible 10000) <= 10000
  /\ exists e,
      is_timeout e = true
      /\ get_balance (env_of_site s)
         = Exec (Raises e)
                [Goto dashboard 0 DomContentLoaded;
                 WaitForSelector "#totalAmt" Visible 10000]
                (ms + 10000).
Proof.
  intros Hnav Hvis. split; [now apply wait_bounded|].
  exists (timeout_error (str "Page.wait_for_selector: Timeout exceeded.")).
  split; [reflexivity|].
  rewrite get_balance_eq. unfold_calls. reduce_exec.
  cbn [env_of_site on_goto on_wait_for_selector on_inner_text].
  unfold site_goto, site_wait_for_selector. rewrite Hnav.
  unfold visible_within in Hvis. unfold deadline at 1 2 3. cbn [in_time N.eqb orb].
  reduce_exec.
  destruct (state_reached Visible (site_dom s !! "#totalAmt")) as [v|];
    unfold deadline, in_time; cbn [N.eqb orb]; [rewrite Hvis|]; reflexivity.
Qed.

Lemma get_balance_visibility_timeout_witness :
  took (on_wait_for_selector (env_of_site hidden_balance)
          "#totalAmt" Visible 10000) <= 10000
  /\ exists e,
      is_timeout e = true
      /\ get_balance (env_of_site hidden_balance)
         = Exec (Raises e)
                [Goto dashboard 0 DomContentLoaded;
                 WaitForSelector "#totalAmt" Visible 10000]
                (120 + 10000).
Proof.
  apply (get_balance_visibility_timeout hidden_balance 120); reflexivity.
Defined.

(** C6. The navigation is asked with [timeout=0], that is without a
    deadline.  Whatever the time the page takes to load, the navigation
    returns and [get_balance] goes on to the wait; a navigation that
    fails does so with the error of the browser, not a timeout; and a
    page that never loads leaves [get_balance] blocked in the navigation,
    its only call, with no error.  So a timeout error of [get_balance]
    never comes from the navigation: the wait has been started when one
    is raised. *)
Theorem get_balance_navigation_unbounded s :
  match site_nav s with
  | NavLoads ms =>
      page_goto (env_of_site s) dashboard 0 DomContentLoaded
      = Exec (Returns tt) [Goto dashboard 0 DomContentLoaded] ms
      /\ exists rest,
          trace (get_balance (env_of_site s))
          = Goto dashboard 0 DomContentLoaded
              :: WaitForSelector "#totalAmt" Visible 10000 :: rest
  | NavFails message =>
      get_balance (env_of_site s)
      = Exec (Raises (Exn PlaywrightError message))
             [Goto dashboard 0 DomContentLoaded] 0
  | NavNever =>
      get_balance (env_of_site s)
      = Exec Blocks [Goto dashboard 0 DomContentLoaded] 0
  end
  /\ forall e,
      result (get_balance (env_of_site s)) = Raises e ->
      is_timeout e = true ->
      In (WaitForSelector "#totalAmt" Visible 10000)
         (trace (get_balance (env_of_site s))).
Proof.
  assert (Hcases :
    match site_nav s with
    | NavLoads ms =>
        page_goto (env_of_site s) dashboard 0 DomContentLoaded
        = Exec (Returns tt) [Goto dashboard 0 DomContentLoaded] ms
        /\ exists rest,
            trace (get_balance (env_of_site s))
            = Goto dashboard 0 DomContentLoaded
                :: WaitForSelector "#totalAmt" Visible 10000 :: rest
    | NavFails message =>
        get_balance (env_of_site s)
        = Exec (Raises (Exn PlaywrightError message))
               [Goto dashboard 0 DomContentLoaded] 0
    | NavNever =>
        get_balance (env_of_site s)
        = Exec Blocks [Goto dashboard 0 DomContentLoaded] 0
    end).
  { rewrite get_balance_eq.
    destruct (site_nav s) as [ms|message|] eqn:Hnav.
    - assert (Hg : page_goto (env_of_site s) dashboard 0 DomContentLoaded
                   = Exec (Returns tt) [Goto dashboard 0 DomContentLoaded] ms).
      { unfold page_goto, external. cbn [env_of_site on_goto].
        unfold site_goto. now rewrite Hnav. }
      split; [exact Hg|].
      rewrite bind_trace, Hg. cbn [result trace]. rewrite bind_trace.
      unfold page_wait_for_selector at 1, external at 1. cbn [trace app].
      now eexists.
    - apply bind_raises_eq.
      unfold page_goto, external. cbn [env_of_site on_goto].
      unfold site_goto. now rewrite Hnav.
    - apply bind_blocks_eq.
      unfold page_goto, external. cbn [env_of_site on_goto].
      unfold site_goto. now rewrite Hnav. }
  split; [exact Hcases|].
  intros e Hr He. destruct (site_nav s).
  - destruct Hcases as [_ [rest ->]]. right. now left.
  - rewrite Hcases in Hr. injection Hr as <-. discriminate.
  - rewrite Hcases in Hr. discriminate.
Qed.

(** A page that loads slowly, on which the balance never shows: the only
    timeout there is the one of the wait. *)
Lemma get_balance_navigation_unbounded_witness :
  (page_goto (env_of_site slow_hidden) dashboard 0 DomContentLoaded
   = Exec (Returns tt) [Goto dashboard 0 DomContentLoaded] 3600000
   /\ exists rest,
       trace (get_balance (env_of_site slow_hidden))
       = Goto dashboard 0 DomContentLoaded
           :: WaitForSelector "#totalAmt" Visible 10000 :: rest)
  /\ In (WaitForSelector "#totalAmt" Visible 10000)
        (trace (get_balance (env_of_site slow_hidden))).
Proof.
  destruct (get_balance_navigation_unbounded slow_hidden) as [H1 H2].
  split; [exact H1|].
  apply (H2 (timeout_error (str "Page.wait_for_selector: Timeout exceeded.")));
    reflexivity.
Defined.

(** In every environment, [get_balance] waits at most once, and then for
    "#totalAmt" to be visible. *)
Lemma get_balance_single_wait E :
  List.filter is_wait (trace (get_balance E)) = []
  \/ List.filter is_wait (trace (get_balance E))
     = [WaitForSelector "#totalAmt" Visible 10000].
Proof.
  rewrite get_balance_eq. unfold_calls. reduce_exec.
  repeat next_call; cbn [List.filter is_wait]; auto.
Qed.

(** C10. The only wait of [get_balance] is the one on "#totalAmt".  On a
    page that loads and where that element shows within the bound, the
    text of "#divCrntEntrsAmt" is read as soon as the deposit text has
    been read, whenever that second element shows, even never: the calls,
    the time spent and the outcome, which is what lines 46 to 55 make of
    the two texts, do not depend on it; the outcome is the dict of the two
    amounts when both texts are ones [int] converts. *)
Theorem get_balance_waits_for_deposit_only s ms e1 v e2 :
  site_nav s = NavLoads ms ->
  site_dom s !! "#totalAmt" = Some e1 ->
  el_visible_after e1 = Some v ->
  v <= 10000 ->
  site_dom s !! "#divCrntEntrsAmt" = Some e2 ->
  get_balance (env_of_site s)
  = Exec (converted (el_text e1) (el_text e2))
         [Goto dashboard 0 DomContentLoaded;
          WaitForSelector "#totalAmt" Visible 10000;
          InnerText "#totalAmt"; InnerText "#divCrntEntrsAmt"]
         (ms + v)
  /\ (convertible (el_text e1) -> convertible (el_text e2) ->
      result (get_balance (env_of_site s))
      = Returns (balance_info (decimal_value (digits_of (el_text e1)))
                              (decimal_value (digits_of (el_text e2))))).
Proof.
  intros Hnav H1 Hv Hle H2. apply N.leb_le in Hle.
  assert (Heq : get_balance (env_of_site s)
                = Exec (converted (el_text e1) (el_text e2))
                       [Goto dashboard 0 DomContentLoaded;
                        WaitForSelector "#totalAmt" Visible 10000;
                        InnerText "#totalAmt"; InnerText "#divCrntEntrsAmt"]
                       (ms + v)).
  { rewrite get_balance_eq. unfold_calls.
    cbn [env_of_site on_goto on_wait_for_selector on_inner_text].
    unfold site_goto, site_wait_for_selector, site_inner_text.
    rewrite Hnav, H1, H2. cbn [state_reached]. rewrite Hv.
    unfold deadline, in_time. rewrite Hle.
    cbn [N.eqb orb result trace elapsed answer took app].
    f_equal. lia. }
  split; [exact Heq|].
  intros Hc1 Hc2. rewrite Heq. cbn [result]. unfold converted.
  unfold convertible in Hc1, Hc2. now rewrite Hc1, Hc2.
Qed.

Lemma get_balance_waits_for_deposit_only_witness :
  get_balance (env_of_site late_page)
  = Exec (Returns (balance_info 35000 20000))
         [Goto dashboard 0 DomContentLoaded;
          WaitForSelector "#totalAmt" Visible 10000;
          InnerText "#totalAmt"; InnerText "#divCrntEntrsAmt"]
         (9000 + 9999)
  /\ result (get_balance (env_of_site late_page))
     = Returns (balance_info 35000 20000).
Proof.
  destruct (get_balance_waits_for_deposit_only late_page 9000
              {| el_text := str "35,000"; el_visible_after := Some 9999 |}
              9999
              {| el_text := str "20,000원"; el_visible_after := None |})
    as [H1 H2]; try reflexivity; [lia|].
  split; [exact H1|]. apply H2; reflexivity.
Defined.

(** ** Further properties of [get_balance] *)

Lemma get_balance_trace_incl E : incl (trace (get_balance E)) page_calls.
Proof.
  rewrite get_balance_eq. unfold_calls. reduce_exec. unfold page_calls.
  repeat next_call; intros ev Hev; cbn [In] in *; intuition auto.
Qed.

Lemma digits_of_app a b : digits_of (a ++ b) = digits_of a ++ digits_of b.
Proof. unfold digits_of. apply List.filter_app. Qed.

Lemma fold_digits_shift b : forall acc,
  fold_left (fun a c => (10 * a + (Z.of_N c - 48))%Z) b acc
  = (acc * 10 ^ Z.of_nat (length b)
     + fold_left (fun a c => (10 * a + (Z.of_N c - 48))%Z) b 0)%Z.
Proof.
  induction b as [|c b IH]; intros acc.
  - cbn [fold_left length]. change (Z.of_nat 0) with 0%Z. lia.
  - cbn [fold_left length].
    rewrite (IH (10 * acc + (Z.of_N c - 48))%Z), (IH (10 * 0 + (Z.of_N c - 48))%Z).
    rewrite Nat2Z.inj_succ, Z.pow_succ_r by lia. ring.
Qed.

Lemma decimal_value_app a b :
  decimal_value (a ++ b)
  = (decimal_value a * 10 ^ Z.of_nat (length b) + decimal_value b)%Z.
Proof.
  unfold decimal_value. rewrite fold_left_app. apply fold_digits_shift.
Qed.

(** X1. In every environment the calls of [get_balance] to the page are
    the first [calls_made E] of its four calls, in their order: each call
    is made once at most, and the call after the first one that raises or
    blocks is not made, nor any later one. *)
Theorem get_balance_calls_prefix E :
  trace (get_balance E) = firstn (calls_made E) page_calls
  /\ (1 <= calls_made E <= 4)%nat.
Proof.
  rewrite get_balance_eq. unfold calls_made. unfold_calls. reduce_exec.
  repeat next_call; (split; [reflexivity|lia]).
Qed.

(** X2. An exception raised by [get_balance] is one that a call to the
    page raised, the calls before it having returned, or else it is the
    [ValueError] of [int] on a text with more digits than it converts,
    the four calls having returned: the parsing raises nothing else. *)
Theorem get_balance_raises_from_page E e :
  result (get_balance E) = Raises e ->
  answer (on_goto E dashboard 0 DomContentLoaded) = Raises e
  \/ (answer (on_goto E dashboard 0 DomContentLoaded) = Returns tt
      /\ answer (on_wait_for_selector E "#totalAmt" Visible 10000) = Raises e)
  \/ (answer (on_goto E dashboard 0 DomContentLoaded) = Returns tt
      /\ answer (on_wait_for_selector E "#totalAmt" Visible 10000) = Returns tt
      /\ answer (on_inner_text E "#totalAmt") = Raises e)
  \/ (answer (on_goto E dashboard 0 DomContentLoaded) = Returns tt
      /\ answer (on_wait_for_selector E "#totalAmt" Visible 10000) = Returns tt
      /\ (exists t1, answer (on_inner_text E "#totalAmt") = Returns t1)
      /\ answer (on_inner_text E "#divCrntEntrsAmt") = Raises e)
  \/ (exists t1 t2,
        extracts E t1 t2
        /\ (within_limit (digits_of t1) = false
            \/ within_limit (digits_of t2) = false)
        /\ e = too_long).
Proof.
  rewrite get_balance_eq. unfold extracts. unfold_calls. reduce_exec.
  destruct (answer (on_goto E dashboard 0 DomContentLoaded)) as [[]|?|] eqn:H1;
    reduce_exec; [|intros [= ->]; now left|discriminate].
  destruct (answer (on_wait_for_selector E "#totalAmt" Visible 10000))
    as [[]|?|] eqn:H2; reduce_exec;
    [|intros [= ->]; right; left; now split|discriminate].
  destruct (answer (on_inner_text E "#totalAmt")) as [t1|?|] eqn:H3;
    reduce_exec; [|intros [= ->]; right; right; left; now repeat split
                  |discriminate].
  destruct (answer (on_inner_text E "#divCrntEntrsAmt")) as [t2|?|] eqn:H4;
    reduce_exec;
    [|intros [= ->]; right; right; right; left; repeat split; eauto
     |discriminate].
  unfold converted.
  destruct (within_limit (digits_of t1)) eqn:L1;
    [destruct (within_limit (digits_of t2)) eqn:L2; [discriminate|]|];
    intros [= <-]; right; right; right; right; exists t1, t2;
    repeat split; auto.
Qed.

(** The [ValueError] of [int] on a deposit text of 4301 digits. *)
Lemma get_balance_raises_from_page_witness :
  answer (on_goto (env_of_site long_deposit) dashboard 0 DomContentLoaded)
  = Raises too_long
  \/ (answer (on_goto (env_of_site long_deposit) dashboard 0 DomContentLoaded)
      = Returns tt
      /\ answer (on_wait_for_selector (env_of_site long_deposit)
                   "#totalAmt" Visible 10000) = Raises too_long)
  \/ (answer (on_goto (env_of_site long_deposit) dashboard 0 DomContentLoaded)
      = Returns tt
      /\ answer (on_wait_for_selector (env_of_site long_deposit)
                   "#totalAmt" Visible 10000) = Returns tt
      /\ answer (on_inner_text (env_of_site long_deposit) "#totalAmt")
         = Raises too_long)
  \/ (answer (on_goto (env_of_site long_deposit) dashboard 0 DomContentLoaded)
      = Returns tt
      /\ answer (on_wait_for_selector (env_of_site long_deposit)
                   "#totalAmt" Visible 10000) = Returns tt
      /\ (exists t1,
            answer (on_inner_text (env_of_site long_deposit) "#totalAmt")
            = Returns t1)
      /\ answer (on_inner_text (env_of_site long_deposit) "#divCrntEntrsAmt")
         = Raises too_long)
  \/ (exists t1 t2,
        extracts (env_of_site long_deposit) t1 t2
        /\ (within_limit (digits_of t1) = false
            \/ within_limit (digits_of t2) = false)
        /\ too_long = too_long).
Proof.
  apply (get_balance_raises_from_page (env_of_site long_deposit)).
  vm_compute. reflexivity.
Defined.

(** X3. The digits on both sides of a separator are read as one number:
    when [int] converts both texts, for an element text [a ++ b] the
    field is the value of the digits of
    [a], shifted by as many decimal places as [b] has digits, plus the
    value of the digits of [b].  A decimal point is therefore not
    understood: "1,234.50" is read as 123450. *)
Theorem get_balance_concatenates E t1 t2 key a b :
  extracts E t1 t2 ->
  convertible t1 -> convertible t2 ->
  (key = "deposit_balance" /\ t1 = a ++ b)
  \/ (key = "available_amount" /\ t2 = a ++ b) ->
  exists d,
    result (get_balance E) = Returns d
    /\ d !! key
       = Some (decimal_value (digits_of a) * 10 ^ Z.of_nat (length (digits_of b))
               + decimal_value (digits_of b))%Z.
Proof.
  intros Hx Hc1 Hc2 Hkey.
  destruct (get_balance_extracts E t1 t2 Hx Hc1 Hc2) as [Hr _].
  eexists. split; [exact Hr|].
  destruct Hkey as [[-> ->]|[-> ->]];
    rewrite digits_of_app, decimal_value_app.
  - apply lookup_deposit.
  - apply lookup_available.
Qed.

Lemma get_balance_concatenates_witness :
  exists d,
    result (get_balance (env_of_site (mock_page (str "1,234.50") (str "0원"))))
    = Returns d
    /\ d !! "deposit_balance" = Some 123450%Z.
Proof.
  apply (get_balance_concatenates _ (str "1,234.50") (str "0원")
           "deposit_balance" (str "1,234") (str ".50")).
  - repeat split.
  - reflexivity.
  - reflexivity.
  - left. split; reflexivity.
Defined.

(** X4. When [int] converts both texts, a character that is not one of
    ['0'..'9'] leaves no mark in the field, wherever it stands in the
    text: a sign, a decimal point, a
    unit, a digit of another script.  A text "-5,000" is read as 5000. *)
Theorem get_balance_ignores_non_digit E t1 t2 key a c b :
  extracts E t1 t2 ->
  convertible t1 -> convertible t2 ->
  (key = "deposit_balance" /\ t1 = a ++ c :: b)
  \/ (key = "available_amount" /\ t2 = a ++ c :: b) ->
  is_digit c = false ->
  exists d,
    result (get_balance E) = Returns d
    /\ d !! key = Some (decimal_value (digits_of (a ++ b))).
Proof.
  intros Hx Hc1 Hc2 Hkey Hc.
  destruct (get_balance_extracts E t1 t2 Hx Hc1 Hc2) as [Hr _].
  eexists. split; [exact Hr|].
  assert (Hd : digits_of (a ++ c :: b) = digits_of (a ++ b)).
  { rewrite !digits_of_app. unfold digits_of at 2. cbn [List.filter].
    now rewrite Hc. }
  destruct Hkey as [[-> ->]|[-> ->]]; rewrite Hd.
  - apply lookup_deposit.
  - apply lookup_available.
Qed.

Lemma get_balance_ignores_non_digit_witness :
  exists d,
    result (get_balance (env_of_site (mock_page (str "-5,000") (str "0원"))))
    = Returns d
    /\ d !! "deposit_balance" = Some 5000%Z.
Proof.
  apply (get_balance_ignores_non_digit _ (str "-5,000") (str "0원")
           "deposit_balance" [] 45 (str "5,000")).
  - repeat split.
  - reflexivity.
  - reflexivity.
  - left. split; reflexivity.
  - reflexivity.
Defined.

(** X5. Reading back what [run] prints: a page that shows a non-negative
    deposit formatted as [run] formats it, and a non-negative available
    amount formatted the same and followed by "원", both of 4300 digits
    at most, is read by [get_balance] as these two amounts. *)
Theorem get_balance_reads_formatted E x y :
  (0 <= x)%Z -> (0 <= y)%Z ->
  convertible (format_comma x) ->
  convertible (format_comma y ++ str "원") ->
  extracts E (format_comma x) (format_comma y ++ str "원") ->
  result (get_balance E) = Returns (balance_info x y).
Proof.
  intros Hx Hy Hc1 Hc2 He.
  destruct (get_balance_extracts E _ _ He Hc1 Hc2) as [-> _].
  rewrite digits_of_app.
  change (digits_of (str "원")) with (@nil char). rewrite app_nil_r.
  destruct (format_comma_spec x Hx) as [_ ->].
  destruct (format_comma_spec y Hy) as [_ ->]. reflexivity.
Qed.

Lemma get_balance_reads_formatted_witness :
  result (get_balance
            (env_of_site (mock_page (format_comma 1234567)
                                    (format_comma 0 ++ str "원"))))
  = Returns (balance_info 1234567 0).
Proof.
  apply (get_balance_reads_formatted _ 1234567 0);
    [lia|lia|reflexivity|reflexivity|repeat split].
Defined.

(** ** Further properties of [run] *)

(** X6. When [run] never comes back (login or a call of [get_balance]
    blocks, as the navigation without deadline can), the [finally] suite
    is not reached: the trace ends with the calls of the session, the
    context and the browser are not closed and no line is printed. *)
Theorem run_blocked_releases_nothing E :
  result (run E) = Blocks ->
  trace (run E) = [Launch true; NewContext; NewPage] ++ trace (session E)
  /\ List.filter is_context_close (trace (run E)) = []
  /\ List.filter is_browser_close (trace (run E)) = []
  /\ List.filter is_print (trace (run E)) = [].
Proof.
  intros Hb.
  destruct (run_cases E) as [(_ & Hr & Ht)|(_ & [e He] & _)]; [|congruence].
  rewrite Hr in Hb. pose proof (guarded_shape E) as Hsh.
  destruct (result (session E)); [now destruct Hsh..|].
  destruct Hsh as [_ Hg]. rewrite Ht, Hg.
  pose proof (session_trace_calls E) as Hc.
  split; [reflexivity|].
  rewrite !List.filter_app.
  rewrite (filter_page_calls is_context_close (trace (session E)))
    by (try exact Hc; now intros []).
  rewrite (filter_page_calls is_browser_close (trace (session E)))
    by (try exact Hc; now intros []).
  rewrite (filter_page_calls is_print (trace (session E)))
    by (try exact Hc; now intros []).
  now repeat split.
Qed.

Lemma run_blocked_releases_nothing_witness :
  trace (run (env_of_site never_loads))
  = [Launch true; NewContext; NewPage] ++ trace (session (env_of_site never_loads))
  /\ List.filter is_context_close (trace (run (env_of_site never_loads))) = []
  /\ List.filter is_browser_close (trace (run (env_of_site never_loads))) = []
  /\ List.filter is_print (trace (run (env_of_site never_loads))) = [].
Proof.
  apply (run_blocked_releases_nothing (env_of_site never_loads)). reflexivity.
Defined.

Example run_never_loads :
  trace (run (env_of_site never_loads))
  = [Launch true; NewContext; NewPage; Login; Goto dashboard 0 DomContentLoaded].
Proof. reflexivity. Qed.

(** X8. [run] navigates only after a login that returned, and only to the
    dashboard, without deadline and up to [domcontentloaded]: no other
    navigation is in any trace of [run]. *)
Theorem run_navigates_after_login E url timeout wait_until :
  In (Goto url timeout wait_until) (trace (run E)) ->
  answer (on_login E) = Returns tt
  /\ url = dashboard /\ timeout = 0 /\ wait_until = DomContentLoaded.
Proof.
  intros Hin.
  assert (Hs : In (Goto url timeout wait_until) (trace (session E))).
  { destruct (run_cases E) as [(_ & _ & Ht)|(_ & _ & Hincl)].
    - rewrite Ht in Hin. apply in_app_or in Hin as [Hin|Hin].
      { cbn [In] in Hin. intuition discriminate. }
      pose proof (guarded_shape E) as Hsh.
      assert (Htail : exists tail,
                 trace (guarded E) = trace (session E) ++ tail
                 /\ forallb is_epilogue tail = true).
      { destruct (result (session E)).
        - apply Hsh.
        - apply Hsh.
        - exists []. now rewrite app_nil_r. }
      destruct Htail as (tail & Hg & Hep). rewrite Hg in Hin.
      apply in_app_or in Hin as [Hin|Hin]; [exact Hin|].
      rewrite forallb_forall in Hep. apply Hep in Hin. discriminate.
    - apply Hincl in Hin. cbn [In] in Hin. intuition discriminate. }
  pose proof (session_cases E) as Hc.
  destruct (answer (on_login E)) as [[]|?|]; destruct Hc as [_ Hc];
    rewrite Hc in Hs; cbn [In] in Hs.
  - destruct Hs as [Hs|Hs]; [discriminate|].
    apply get_balance_trace_incl in Hs. unfold page_calls in Hs.
    cbn [In] in Hs.
    destruct Hs as [[= <- <- <-]|[Hs|[Hs|[Hs|[]]]]];
      try discriminate. now repeat split.
  - intuition discriminate.
  - intuition discriminate.
Qed.

Lemma run_navigates_after_login_witness :
  In (Goto dashboard 0 DomContentLoaded) (trace (run mocked))
  /\ answer (on_login mocked) = Returns tt
  /\ dashboard = dashboard /\ 0 = 0 /\ DomContentLoaded = DomContentLoaded.
Proof.
  assert (H : In (Goto dashboard 0 DomContentLoaded) (trace (run mocked))).
  { vm_compute. right. right. right. right. now left. }
  split; [exact H|].
  exact (run_navigates_after_login mocked dashboard 0 DomContentLoaded H).
Defined.
